(** * The evaluation harness of discord-cluster-manager ([run_eval.py])

    A shallow embedding of [run_eval.py]: the result records, the
    verdict parser of [run_program], the compiler driver
    [compile_cuda_script], the two runners [run_cuda_script] and
    [run_pytorch_script], and the dispatcher [run_config].

    Conventions of the model.
    - A Python [str] is a [string]; every character stands for the code
      point of the same number (0..255).
    - [sources] and [headers] are Python dicts iterated in insertion
      order: association lists.  The verdict dictionary is only looked
      up and compared: a [gmap].
    - The harness runs in a state-and-exception monad over [world]: the
      working directory, the process environment, the pipes it holds,
      a clock and the trace of its system calls.
    - Child processes are an oracle [exec] of the section [Harness]:
      it says whether a program can be started and, if so, how it
      exits, what it prints, what it leaves in the working directory
      and what it writes to the descriptor it was passed.
    - File names are plain names in a writable working directory:
      writing a file and removing an existing one succeed.
    - A child that was started exits: the oracle says how. A child that
      never exits (one that hangs, or one that writes more to its
      descriptor than a pipe holds, which nobody reads while it runs)
      is not described, and what is stated of a run is stated of runs
      whose children exit.
    - Output of children is text already; the descriptors of a new pipe
      are fresh numbers. *)

From Stdlib Require Import ZArith Ascii String List Bool.
From stdpp Require Import base option list gmap strings pretty.

Open Scope string_scope.
Open Scope Z_scope.

(** ** Python string operations used by the harness *)

Module PyStr.

Definition code (c : ascii) : N := N_of_ascii c.

Definition LF : ascii := ascii_of_N 10.
Definition CR : ascii := ascii_of_N 13.
Definition colon : ascii := ascii_of_N 58.
Definition squote : ascii := ascii_of_N 39.
Definition dquote : ascii := ascii_of_N 34.

(** [str.isspace] on one character, as [str.strip()] uses it:
    U+0009..U+000D, U+001C..U+0020, U+0085 and U+00A0. *)
Definition is_space (c : ascii) : bool :=
  let n := code c in
  ((9 <=? n) && (n <=? 13) || (28 <=? n) && (n <=? 32)
   || (n =? 133) || (n =? 160))%N.

(** The line boundaries of [str.splitlines()]: LF, VT, FF, CR, FS, GS,
    RS and NEL. *)
Definition is_linebreak (c : ascii) : bool :=
  let n := code c in
  ((10 <=? n) && (n <=? 13) || (28 <=? n) && (n <=? 30) || (n =? 133))%N.

Fixpoint lstrip (s : string) : string :=
  match s with
  | String c r => if is_space c then lstrip r else s
  | EmptyString => EmptyString
  end.

Fixpoint rev_onto (s acc : string) : string :=
  match s with
  | String c r => rev_onto r (String c acc)
  | EmptyString => acc
  end.

Definition reverse (s : string) : string := rev_onto s EmptyString.

Definition rstrip (s : string) : string := reverse (lstrip (reverse s)).

(** [s.strip()] *)
Definition strip (s : string) : string := rstrip (lstrip s).

(** [s.partition(":")]: the text before the first colon, the separator
    found (empty when there is none) and the text after it. *)
Fixpoint partition_colon (s : string) : string * string * string :=
  match s with
  | EmptyString => (EmptyString, EmptyString, EmptyString)
  | String c r =>
      if Ascii.eqb c colon then (EmptyString, String colon EmptyString, r)
      else let '(k, sep, v) := partition_colon r in (String c k, sep, v)
  end.

(** [s.splitlines()]: [cur] is the line being read, reversed. A line
    ends at a line boundary, CR LF counting as one, or at the end of
    the text; no empty last line is produced after a final boundary. *)
Fixpoint splitlines_from (cur : string) (s : string) : list string :=
  match s with
  | EmptyString => [reverse cur]
  | String c r =>
      if is_linebreak c then
        let r' := if Ascii.eqb c CR
                  then match r with
                       | String d r2 => if Ascii.eqb d LF then r2 else r
                       | EmptyString => r
                       end
                  else r in
        reverse cur ::
          match r' with
          | EmptyString => []
          | String _ _ => splitlines_from EmptyString r'
          end
      else splitlines_from (String c cur) r
  end.

Definition splitlines (s : string) : list string :=
  match s with
  | EmptyString => []
  | String _ _ => splitlines_from EmptyString s
  end.

(** Reading a text stream opened with the default [newline=None]
    translates CR LF and a lone CR into LF. *)
Fixpoint universal_newlines (s : string) : string :=
  match s with
  | EmptyString => EmptyString
  | String c r =>
      if Ascii.eqb c CR then
        match r with
        | String d r2 =>
            if Ascii.eqb d LF then String LF (universal_newlines r2)
            else String LF (universal_newlines r)
        | EmptyString => String LF EmptyString
        end
      else String c (universal_newlines r)
  end.

(** [shlex.quote]: characters that need no quoting are the ASCII
    letters, digits and [_@%+=:,./-]. *)
Definition is_shell_safe (c : ascii) : bool :=
  let n := code c in
  ((48 <=? n) && (n <=? 57) || (65 <=? n) && (n <=? 90)
   || (97 <=? n) && (n <=? 122) || (n =? 95)
   || (n =? 64) || (n =? 37) || (n =? 43) || (n =? 61) || (n =? 58)
   || (n =? 44) || (n =? 46) || (n =? 47) || (n =? 45))%N.

Fixpoint all_safe (s : string) : bool :=
  match s with
  | EmptyString => true
  | String c r => is_shell_safe c && all_safe r
  end.

(** [s.replace("'", "'\"'\"'")] *)
Fixpoint escape_squote (s : string) : string :=
  match s with
  | EmptyString => EmptyString
  | String c r =>
      if Ascii.eqb c squote
      then String squote (String dquote (String squote (String dquote
             (String squote (escape_squote r)))))
      else String c (escape_squote r)
  end.

Definition quote (s : string) : string :=
  match s with
  | EmptyString => String squote (String squote EmptyString)
  | String _ _ =>
      if all_safe s then s
      else String squote (escape_squote s +:+ String squote EmptyString)
  end.

(** [sep.join(l)] *)
Fixpoint join (sep : string) (l : list string) : string :=
  match l with
  | [] => EmptyString
  | [x] => x
  | x :: r => x +:+ sep +:+ join sep r
  end.

End PyStr.

Import PyStr.

(** [_make_cmd] *)
Definition _make_cmd (args : list string) : string :=
  join " " (map quote args).

(** ** The verdict parser (body of the loop in [run_program]) *)

(** One iteration: [key, _, value = line.partition(":")], then the
    test on the untrimmed parts, then the store under trimmed key. *)
Definition parse_line (result_dict : gmap string string) (line : string)
  : gmap string string :=
  let '(key, _, value) := partition_colon line in
  if negb (String.eqb key "") || negb (String.eqb value "")
  then <[strip key := strip value]> result_dict
  else result_dict.

Definition parse_lines (lines : list string) : gmap string string :=
  fold_left parse_line lines ∅.

Definition parse_verdict (result : string) : gmap string string :=
  parse_lines (splitlines result).

Definition nl : string := String LF EmptyString.

(** ** Result records *)

Module CompileResult.
Record t := mk {
    nvcc_found : bool;
    nvcc_version : string;
    success : bool;
    command : string;
    stdout : option string;   (* [None] is Python's None *)
    stderr : option string;
    exit_code : Z;
  }.
End CompileResult.

Module RunResult.
Record t := mk {
    success : bool;
    passed : bool;
    command : string;
    stdout : string;
    stderr : string;
    exit_code : Z;
    duration : Z;             (* clock ticks *)
    result : gmap string string;
  }.
End RunResult.

Module FullResult.
Record t := mk {
    success : bool;
    error : string;
    compile : option CompileResult.t;
    run : option RunResult.t;
  }.
End FullResult.

(** A [dict[str, str]] in insertion order. *)
Abbreviation pydict := (list (string * string)).

Definition keys (d : pydict) : list string := map fst d.

(** The job configuration handed to [run_config]: for every key the
    harness reads, [None] when the dict has no such key. A value that
    may itself be Python's None is an inner option. *)
Record config := {
  cfg_lang : option string;
  cfg_sources : option pydict;
  cfg_main : option string;
  cfg_headers : option (option pydict);
  cfg_arch : option (option Z);
  cfg_include_dirs : option (option (list string));
}.

(** ** The world the harness runs in *)

Record called_process_error := {
  cpe_returncode : Z;
  cpe_cmd : list string;
  cpe_stdout : option string;
  cpe_stderr : option string;
}.

Inductive exn :=
| AttributeError (msg : string)
| AssertionError
| KeyError (key : string)
| ValueError (msg : string)
| FileNotFoundError (filename : string)
| OSError (msg : string)
| CalledProcessError (e : called_process_error).

(** A pipe made by the parent. *)
Record pipe := {
  rfd : Z;
  wfd : Z;
  r_open : bool;     (* the parent holds the read end *)
  w_open : bool;     (* the parent holds the write end *)
  child_w : bool;    (* a running child holds a copy of the write end *)
  buf : string;      (* what has been written and not yet read *)
}.

Inductive event :=
| EvWrite (path content : string)
| EvRemove (path : string)
| EvPrint (msg : string)
| EvPipe (r w : Z)
| EvExec (args : list string) (env : gmap string string)
         (pass_fds : list Z) (cwd : gmap string string)
| EvExit (args : list string) (returncode : Z)
| EvClose (fd : Z)
| EvRead (fd : Z).

Record world := {
  fs : gmap string string;        (* the working directory *)
  environ : gmap string string;   (* [os.environ] *)
  pipes : list pipe;
  clock : Z;                      (* [time.perf_counter()] *)
  trace : list event;             (* oldest first *)
}.

Definition set_fs (f : gmap string string) (w : world) : world :=
  {| fs := f; environ := environ w; pipes := pipes w;
     clock := clock w; trace := trace w |}.
Definition set_pipes (ps : list pipe) (w : world) : world :=
  {| fs := fs w; environ := environ w; pipes := ps;
     clock := clock w; trace := trace w |}.
Definition set_clock (c : Z) (w : world) : world :=
  {| fs := fs w; environ := environ w; pipes := pipes w;
     clock := c; trace := trace w |}.
Definition emit (e : event) (w : world) : world :=
  {| fs := fs w; environ := environ w; pipes := pipes w;
     clock := clock w; trace := trace w ++ [e] |}.

(** What a child process did, once it has exited. *)
Record proc_exit := {
  returncode : Z;
  p_stdout : string;
  p_stderr : string;
  p_fs : gmap string string;   (* the working directory it leaves *)
  p_report : string;           (* what it wrote to the descriptors passed *)
  p_elapsed : Z;
}.

(** ** The monad: state, exceptions, and a read that never returns *)

Inductive outcome (A : Type) :=
| Ok (a : A)
| Raise (e : exn)
| Hang.
Arguments Ok {A} a.
Arguments Raise {A} e.
Arguments Hang {A}.

Definition M (A : Type) : Type := world → outcome A * world.

#[global] Instance M_ret : MRet M := λ A a w, (Ok a, w).
#[global] Instance M_bind : MBind M := λ A B f m w,
  match m w with
  | (Ok a, w1) => f a w1
  | (Raise e, w1) => (Raise e, w1)
  | (Hang, w1) => (Hang, w1)
  end.
#[global] Instance M_fmap : FMap M := λ A B f m, a ← m; mret (f a).

Definition raise {A} (e : exn) : M A := λ w, (Raise e, w).
Definition get_world : M world := λ w, (Ok w, w).
Definition modify (f : world → world) : M unit := λ w, (Ok (), f w).
Definition hang {A} : M A := λ w, (Hang, w).

(** [try: body finally: fin]. An exception of [fin] replaces the
    outcome of [body]. *)
Definition try_finally {A} (body : M A) (fin : M unit) : M A := λ w,
  match body w with
  | (Hang, w1) => (Hang, w1)
  | (o, w1) =>
      match fin w1 with
      | (Ok _, w2) => (o, w2)
      | (Raise e, w2) => (Raise e, w2)
      | (Hang, w2) => (Hang, w2)
      end
  end.

(** [try: body except subprocess.CalledProcessError as e: handler] *)
Definition try_except {A} (body : M A) (handler : called_process_error → M A)
  : M A := λ w,
  match body w with
  | (Raise (CalledProcessError e), w1) => handler e w1
  | r => r
  end.

(** [for x in l: f(x)] *)
Fixpoint for_ {A} (l : list A) (f : A → M unit) : M unit :=
  match l with
  | [] => mret ()
  | x :: r => f x;; for_ r f
  end.

(** ** System calls *)

(** [Path(path).write_text(content)] *)
Definition write_text (path content : string) : M unit :=
  modify (λ w, emit (EvWrite path content) (set_fs (<[path := content]> (fs w)) w)).

(** [os.path.exists(f)] *)
Definition os_path_exists (f : string) : M bool :=
  w ← get_world; mret (bool_decide (is_Some (fs w !! f))).

(** [os.remove(f)] *)
Definition os_remove (f : string) : M unit :=
  w ← get_world;
  if bool_decide (is_Some (fs w !! f))
  then modify (λ w, emit (EvRemove f) (set_fs (delete f (fs w)) w))
  else raise (FileNotFoundError f).

Definition print (msg : string) : M unit := modify (emit (EvPrint msg)).

(** [time.perf_counter()] *)
Definition perf_counter : M Z := clock <$> get_world.

(** A descriptor number no pipe of the parent uses. *)
Definition fresh_fd (ps : list pipe) : Z :=
  1 + fold_right (λ p m, Z.max (Z.max (rfd p) (wfd p)) m) 2 ps.

(** [os.pipe()] *)
Definition os_pipe : M (Z * Z) :=
  w ← get_world;
  let r := fresh_fd (pipes w) in
  let p := {| rfd := r; wfd := r + 1; r_open := true; w_open := true;
              child_w := false; buf := "" |} in
  modify (λ w, emit (EvPipe r (r + 1)) (set_pipes (p :: pipes w) w));;
  mret (r, r + 1).

Fixpoint close_fd (fd : Z) (ps : list pipe) : option (list pipe) :=
  match ps with
  | [] => None
  | p :: r =>
      if w_open p && (wfd p =? fd) then
        Some ({| rfd := rfd p; wfd := wfd p; r_open := r_open p;
                 w_open := false; child_w := child_w p; buf := buf p |} :: r)
      else if r_open p && (rfd p =? fd) then
        Some ({| rfd := rfd p; wfd := wfd p; r_open := false;
                 w_open := w_open p; child_w := child_w p; buf := buf p |} :: r)
      else cons p <$> close_fd fd r
  end.

(** [os.close(fd)] *)
Definition os_close (fd : Z) : M unit :=
  w ← get_world;
  match close_fd fd (pipes w) with
  | Some ps => modify (λ w, emit (EvClose fd) (set_pipes ps w))
  | None => raise (OSError "Bad file descriptor")
  end.

Definition find_reader (fd : Z) (ps : list pipe) : option pipe :=
  List.find (λ p, r_open p && (rfd p =? fd)) ps.

(** [os.fdopen(fd, "r").read()]: reads to end of stream. The stream
    ends only when no process holds the write end: neither the parent
    nor a child. *)
Definition fdopen_read (fd : Z) : M string :=
  w ← get_world;
  match find_reader fd (pipes w) with
  | None => raise (OSError "Bad file descriptor")
  | Some p =>
      modify (emit (EvRead fd));;
      if w_open p || child_w p then hang
      else mret (universal_newlines (buf p))
  end.

(** A child that starts gets a copy of the write ends passed to it. *)
Definition hand_over (fds : list Z) (ps : list pipe) : list pipe :=
  map (λ p, if w_open p && bool_decide (wfd p ∈ fds)
            then {| rfd := rfd p; wfd := wfd p; r_open := r_open p;
                    w_open := w_open p; child_w := true; buf := buf p |}
            else p) ps.

(** The child writes its report into the write ends it was passed. *)
Definition feed (fds : list Z) (data : string) (ps : list pipe) : list pipe :=
  map (λ p, if w_open p && bool_decide (wfd p ∈ fds)
            then {| rfd := rfd p; wfd := wfd p; r_open := r_open p;
                    w_open := w_open p; child_w := child_w p;
                    buf := buf p +:+ data |}
            else p) ps.

(** A child that exits closes its copies. *)
Definition release (fds : list Z) (ps : list pipe) : list pipe :=
  map (λ p, if bool_decide (wfd p ∈ fds)
            then {| rfd := rfd p; wfd := wfd p; r_open := r_open p;
                    w_open := w_open p; child_w := false; buf := buf p |}
            else p) ps.

(** ** Constants of [consts.py] *)

Module ExitCode.
(** Modelled from the spec: [ExitCode] is imported from [consts] and
    not defined in the sources at hand; the exit-code contract of the
    spec gives 0 for success. *)
Definition SUCCESS : Z := 0.
End ExitCode.

Section Harness.

(** [ExitCode.VALIDATE_FAIL] and [CUDA_FLAGS], imported from [consts]
    and not defined in the sources at hand. *)
Variable VALIDATE_FAIL : Z.
Variable CUDA_FLAGS : list string.

(** The operating system's side of a child process: given the argument
    vector, the environment, the descriptors passed and the working
    directory, either the program cannot be started ([None]) or it runs
    and exits. *)
Variable exec :
  list string → gmap string string → list Z → gmap string string →
  option proc_exit.

(** Start a child ([Popen]): it holds a copy of the write ends passed
    to it. The value returned says how the child will have exited. *)
Definition popen (args : list string) (env : option (gmap string string))
    (pass_fds : list Z) : M proc_exit :=
  w ← get_world;
  let env := default (environ w) env in
  modify (emit (EvExec args env pass_fds (fs w)));;
  match exec args env pass_fds (fs w) with
  | None => raise (FileNotFoundError (hd "" args))
  | Some p =>
      modify (λ w, set_pipes (hand_over pass_fds (pipes w)) w);;
      mret p
  end.

(** Wait for the child to exit ([communicate] and [wait]): by then it
    has changed the working directory, written its report, and closed
    its copies of the descriptors. *)
Definition wait (args : list string) (pass_fds : list Z) (p : proc_exit)
  : M unit :=
  modify (λ w, emit (EvExit args (returncode p))
                 (set_clock (clock w + p_elapsed p)
                    (set_pipes (release pass_fds
                                  (feed pass_fds (p_report p) (pipes w)))
                       (set_fs (p_fs p) w)))).

(** Start a child and wait for it to exit. *)
Definition spawn (args : list string) (env : option (gmap string string))
    (pass_fds : list Z) : M proc_exit :=
  p ← popen args env pass_fds;
  wait args pass_fds p;;
  mret p.

(** [subprocess.check_output(args, encoding="utf-8")]: standard output
    is captured, standard error is not. *)
Definition check_output (args : list string) : M string :=
  p ← spawn args None [];
  if returncode p =? 0 then mret (p_stdout p)
  else raise (CalledProcessError
                {| cpe_returncode := returncode p; cpe_cmd := args;
                   cpe_stdout := Some (p_stdout p); cpe_stderr := None |}).

Record CompletedProcess := {
  cp_args : list string;
  cp_returncode : Z;
  cp_stdout : string;
  cp_stderr : string;
}.

(** [subprocess.run(args, capture_output=True, text=True, check=..,
    env=.., pass_fds=..)] *)
Definition subprocess_run (args : list string) (check : bool)
    (env : option (gmap string string)) (pass_fds : list Z)
  : M CompletedProcess :=
  p ← spawn args env pass_fds;
  if check && negb (returncode p =? 0)
  then raise (CalledProcessError
                {| cpe_returncode := returncode p; cpe_cmd := args;
                   cpe_stdout := Some (p_stdout p);
                   cpe_stderr := Some (p_stderr p) |})
  else mret {| cp_args := args; cp_returncode := returncode p;
               cp_stdout := p_stdout p; cp_stderr := p_stderr p |}.

Definition compile_cuda_script (files : list string) (arch : option Z)
    (include_dirs : option (list string)) (verbose : bool)
  : M CompileResult.t :=
  let include_dirs := default [] include_dirs in
  let print_ msg := if verbose then print msg else mret () in
  print_ "[CUDA Env Check]";;
  found ← try_except
    (nvcc ← strip <$> check_output ["which"; "nvcc"];
     nvcc_version ← check_output ["nvcc"; "--version"];
     mret (inr (nvcc, nvcc_version)))
    (λ e, mret (inl
       {| CompileResult.nvcc_found := false;
          CompileResult.success := false;
          CompileResult.nvcc_version := "";
          CompileResult.command := _make_cmd (cpe_cmd e);
          CompileResult.stdout := cpe_stdout e;
          CompileResult.stderr := cpe_stderr e;
          CompileResult.exit_code := cpe_returncode e |}));
  match found with
  | inl early => mret early
  | inr (nvcc, nvcc_version) =>
      let ARCH :=
        match arch with
        | None => "-arch=native"
        | Some a => "-gencode=arch=compute_" +:+ pretty a +:+ ",code=sm_" +:+ pretty a
        end in
      let command :=
        ([nvcc] ++ CUDA_FLAGS ++ include_dirs ++ files
           ++ [ARCH; "-o"; "eval.out"])%list in
      print_ "[Compiling]";;
      try_except
        (compile_process ← subprocess_run command true None [];
         mret {| CompileResult.nvcc_found := true;
                 CompileResult.success := true;
                 CompileResult.nvcc_version := nvcc_version;
                 CompileResult.command := _make_cmd (cp_args compile_process);
                 CompileResult.stdout := Some (cp_stdout compile_process);
                 CompileResult.stderr := Some (cp_stderr compile_process);
                 CompileResult.exit_code := cp_returncode compile_process |})
        (λ e, mret
           {| CompileResult.nvcc_found := true;
              CompileResult.success := false;
              CompileResult.nvcc_version := nvcc_version;
              CompileResult.command := _make_cmd (cpe_cmd e);
              CompileResult.stdout := cpe_stdout e;
              CompileResult.stderr := cpe_stderr e;
              CompileResult.exit_code := cpe_returncode e |})
  end.

(** The environment [run_program] gives the child. *)
Definition child_env (seed : Z) (w : world) : gmap string string :=
  <["POPCORN_SEED" := pretty seed]>
    (<["POPCORN_FD" := pretty (fresh_fd (pipes w) + 1)]> (environ w)).

Definition run_program (args : list string) (seed : Z) : M RunResult.t :=
  env ← environ <$> get_world;
  '(pipe_read, pipe_write) ← os_pipe;
  let env := <["POPCORN_FD" := pretty pipe_write]> env in
  let env := <["POPCORN_SEED" := pretty seed]> env in
  execution_start_time ← perf_counter;
  run_process ← subprocess_run args false (Some env) [pipe_write];
  execution_end_time ← perf_counter;
  os_close pipe_write;;
  result ← fdopen_read pipe_read;
  let result_dict := parse_verdict result in
  mret {| RunResult.success :=
            (cp_returncode run_process =? ExitCode.SUCCESS)
            || (cp_returncode run_process =? VALIDATE_FAIL);
          RunResult.passed :=
            bool_decide (result_dict !! "check" = Some "pass");
          RunResult.command := _make_cmd (cp_args run_process);
          RunResult.stdout := cp_stdout run_process;
          RunResult.stderr := cp_stderr run_process;
          RunResult.exit_code := cp_returncode run_process;
          RunResult.duration := execution_end_time - execution_start_time;
          RunResult.result := result_dict |}.

(** The run result returned when compilation failed. *)
Definition not_run : RunResult.t :=
  {| RunResult.success := false; RunResult.passed := false;
     RunResult.command := ""; RunResult.stdout := ""; RunResult.stderr := "";
     RunResult.exit_code := -1; RunResult.duration := 0;
     RunResult.result := ∅ |}.

(** [d.items()] and [d.keys()] on a value that may be None. *)
Definition items_of (d : option pydict) : M pydict :=
  match d with
  | Some d => mret d
  | None => raise (AttributeError "'NoneType' object has no attribute 'items'")
  end.
Definition keys_of (d : option pydict) : M (list string) :=
  match d with
  | Some d => mret (keys d)
  | None => raise (AttributeError "'NoneType' object has no attribute 'keys'")
  end.

(** [if os.path.exists(f): os.remove(f)] *)
Definition remove_if_exists (f : string) : M unit :=
  e ← os_path_exists f; if (e : bool) then os_remove f else mret ().

(** The [try] block of [run_cuda_script]: [inl] is its early
    [return], [inr] the compile result it leaves in scope. *)
Definition cuda_try (sources : pydict) (headers : option pydict)
    (arch : option Z) (include_dirs : list string)
  : M (CompileResult.t * RunResult.t + CompileResult.t) :=
  for_ sources (λ sc : string * string, write_text sc.1 sc.2);;
  hs ← items_of headers;
  for_ hs (λ hc : string * string, write_text hc.1 hc.2);;
  compile_result ← compile_cuda_script (keys sources) arch (Some include_dirs) true;
  if negb (CompileResult.success compile_result)
  then mret (inl (compile_result, not_run))
  else mret (inr compile_result).

(** The [finally] block of [run_cuda_script]. *)
Definition cuda_finally (sources : pydict) (headers : option pydict) : M unit :=
  hk ← keys_of headers;
  let tmp_files := (keys sources ++ hk)%list in
  for_ tmp_files remove_if_exists.

Definition run_cuda_script (sources : pydict) (headers : option pydict)
    (arch : option Z) (include_dirs : option (list string)) (seed : Z)
  : M (CompileResult.t * RunResult.t) :=
  let include_dirs := default [] include_dirs in
  r ← try_finally (cuda_try sources headers arch include_dirs)
                  (cuda_finally sources headers);
  match r with
  | inl early => mret early
  | inr compile_result =>
      run_result ← run_program ["./eval.out"] seed;
      mret (compile_result, run_result)
  end.

Definition run_pytorch_script (sources : pydict) (main : string)
    (arch : option Z) (seed : Z) : M RunResult.t :=
  try_finally
    ((if bool_decide (main ∈ keys sources) then mret ()
      else raise AssertionError);;
     for_ sources (λ sc : string * string, write_text sc.1 sc.2);;
     run_program ["python"; main] seed)
    (for_ (keys sources) remove_if_exists).

(** [config[key]] *)
Definition subscript {A} (key : string) (v : option A) : M A :=
  match v with
  | Some a => mret a
  | None => raise (KeyError key)
  end.

Definition run_config (config : config) : M FullResult.t :=
  lang ← subscript "lang" (cfg_lang config);
  if String.eqb lang "py" then
    sources ← subscript "sources" (cfg_sources config);
    main ← subscript "main" (cfg_main config);
    run_result ← run_pytorch_script sources main
                   (default None (cfg_arch config)) 42;
    mret {| FullResult.success := true; FullResult.error := "";
            FullResult.compile := None; FullResult.run := Some run_result |}
  else if String.eqb lang "cu" then
    sources ← subscript "sources" (cfg_sources config);
    '(comp, run) ← run_cuda_script sources
                     (default (Some []) (cfg_headers config))
                     (default None (cfg_arch config))
                     (default (Some []) (cfg_include_dirs config)) 42;
    mret {| FullResult.success := true; FullResult.error := "";
            FullResult.compile := Some comp; FullResult.run := Some run |}
  else raise (ValueError ("Invalid language " +:+ lang)).

End Harness.

(** ** [consts.py]: the environment check run when the module is loaded *)

Definition set_environ (e : gmap string string) (w : world) : world :=
  {| fs := fs w; environ := e; pipes := pipes w;
     clock := clock w; trace := trace w |}.

(** [os.getenv(var)] *)
Definition os_getenv (var : string) : M (option string) :=
  w ← get_world; mret (environ w !! var).

(** Truth value of what [os.getenv] returns: None and the empty string
    are false. *)
Definition truthy (v : option string) : bool :=
  match v with
  | None => false
  | Some s => negb (String.eqb s "")
  end.

Definition required_env_vars : list string :=
  ["DISCORD_TOKEN"; "GITHUB_TOKEN"; "GITHUB_REPO"].

Section Consts.

(** [load_dotenv()] of the package [dotenv]: what it makes of the
    environment. *)
Variable load_dotenv : gmap string string → gmap string string.

Definition init_environment : M unit :=
  modify (λ w, set_environ (load_dotenv (environ w)) w);;
  for_ required_env_vars (λ var,
    v ← os_getenv var;
    if truthy v then mret () else raise (ValueError (var +:+ " not found"))).

End Consts.

(** ** Vocabulary of the statements *)

(** The key and the value a verdict line parses to: split on the first
    colon, both sides trimmed. *)
Definition line_key (line : string) : string :=
  strip (partition_colon line).1.1.
Definition line_value (line : string) : string :=
  strip (partition_colon line).2.

(** The test [key != "" or value != ""] of the loop, on the untrimmed
    parts. *)
Definition line_kept (line : string) : bool :=
  negb (String.eqb (partition_colon line).1.1 "")
  || negb (String.eqb (partition_colon line).2 "").

(** The world after [for f, c in d.items(): Path(f).write_text(c)]. *)
Definition written (d : pydict) (w : world) : world :=
  fold_left (λ w (fc : string * string),
               emit (EvWrite fc.1 fc.2) (set_fs (<[fc.1 := fc.2]> (fs w)) w)) d w.

(** The world after [for f in l: if os.path.exists(f): os.remove(f)]. *)
Definition cleaned (l : list string) (w : world) : world :=
  fold_left (λ w f,
               if bool_decide (is_Some (fs w !! f))
               then emit (EvRemove f) (set_fs (delete f (fs w)) w)
               else w) l w.

(** Every call of [run_program] begins by creating a pipe. *)
Definition is_pipe (e : event) : bool :=
  match e with EvPipe _ _ => true | _ => false end.

(** The result [run_program] builds from an exited child. *)
Definition run_result_of (VALIDATE_FAIL : Z) (args : list string) (p : proc_exit)
  : RunResult.t :=
  let result_dict := parse_verdict (universal_newlines (p_report p)) in
  {| RunResult.success :=
       (returncode p =? ExitCode.SUCCESS) || (returncode p =? VALIDATE_FAIL);
     RunResult.passed := bool_decide (result_dict !! "check" = Some "pass");
     RunResult.command := _make_cmd args;
     RunResult.stdout := p_stdout p;
     RunResult.stderr := p_stderr p;
     RunResult.exit_code := returncode p;
     RunResult.duration := p_elapsed p;
     RunResult.result := result_dict |}.

(** The steps of a run whose child was started and has exited with
    [rc]. *)
Definition run_trace (args : list string) (seed : Z) (w : world) (rc : Z)
  : list event :=
  [EvPipe (fresh_fd (pipes w)) (fresh_fd (pipes w) + 1);
   EvExec args (child_env seed w) [fresh_fd (pipes w) + 1] (fs w);
   EvExit args rc;
   EvClose (fresh_fd (pipes w) + 1);
   EvRead (fresh_fd (pipes w))].


(** The characters of a string, and [lstrip] on them. *)
Abbreviation chars := list_ascii_of_string.

Fixpoint drop_spaces (l : list ascii) : list ascii :=
  match l with
  | c :: r => if is_space c then drop_spaces r else l
  | [] => []
  end.

(** A list that does not begin with white space. *)
Definition no_space_head (l : list ascii) : Prop :=
  match l with
  | c :: _ => is_space c = false
  | [] => True
  end.

(** The architecture flag and the command line of the compiler. *)
Definition arch_flag (arch : option Z) : string :=
  match arch with
  | None => "-arch=native"
  | Some a => "-gencode=arch=compute_" +:+ pretty a +:+ ",code=sm_" +:+ pretty a
  end.

Definition compile_command (CUDA_FLAGS : list string) (nvcc : string)
    (include_dirs files : list string) (arch : option Z) : list string :=
  ([nvcc] ++ CUDA_FLAGS ++ include_dirs ++ files
     ++ [arch_flag arch; "-o"; "eval.out"])%list.

(** The pipe [os.pipe()] adds to those of [w]. *)
Definition new_pipe (w : world) : pipe :=
  {| rfd := fresh_fd (pipes w); wfd := fresh_fd (pipes w) + 1;
     r_open := true; w_open := true; child_w := false; buf := "" |}.

(** ** A concrete machine, for evaluating the harness *)

Module Demo.

Definition nvcc_path : string := "/usr/local/cuda/bin/nvcc".

Definition exited (rc : Z) (out err : string) (cwd : gmap string string)
    (report : string) : proc_exit :=
  {| returncode := rc; p_stdout := out; p_stderr := err; p_fs := cwd;
     p_report := report; p_elapsed := 7 |}.

(** A machine on which [which nvcc] exits with [which_rc], the compiler
    with [compile_rc], and the evaluated program with [run_rc] after
    writing [report] to the descriptor it was passed. *)
Definition exec (which_rc compile_rc run_rc : Z) (report : string)
    (args : list string) (env : gmap string string) (fds : list Z)
    (cwd : gmap string string) : option proc_exit :=
  if bool_decide (args = ["which"; "nvcc"]) then
    Some (exited which_rc (if which_rc =? 0 then nvcc_path +:+ nl else "") "" cwd "")
  else if bool_decide (args = ["nvcc"; "--version"]) then
    Some (exited 0 "Cuda compilation tools, release 12.4" "" cwd "")
  else if bool_decide (hd "" args = nvcc_path) then
    Some (if compile_rc =? 0
          then exited 0 "" "" (<["eval.out" := "ELF"]> cwd) ""
          else exited compile_rc "" "error: expected a ;" cwd "")
  else if bool_decide (args = ["./eval.out"]) then
    if bool_decide (is_Some (cwd !! "eval.out"))
    then Some (exited run_rc "ok" "" cwd report) else None
  else if bool_decide (hd "" args = "python") then
    Some (exited run_rc "ok" "" cwd report)
  else None.

(** A machine given by a table from argument vectors to exits; what
    is not in the table cannot be started. *)
Definition exec_table (table : list (list string * proc_exit))
    (args : list string) (env : gmap string string) (fds : list Z)
    (cwd : gmap string string) : option proc_exit :=
  snd <$> List.find (λ row, bool_decide (row.1 = args)) table.

Definition VALIDATE_FAIL : Z := 112.
Definition CUDA_FLAGS : list string := ["--std=c++20"; "-O3"].

Definition pass_report : string := "check: pass" +:+ nl +:+ "score: 12.5" +:+ nl.

Definition w0 : world :=
  {| fs := ∅; environ := {["PATH" := "/usr/bin"]}; pipes := []; clock := 0;
     trace := [] |}.

End Demo.

(** * Properties *)

(** ** Python string functions on small inputs *)

Example splitlines_blank_line :
  splitlines ("a" +:+ nl +:+ nl +:+ "b" +:+ nl) = ["a"; ""; "b"].
Proof. reflexivity. Qed.

Example splitlines_crlf :
  splitlines ("a" +:+ String CR nl +:+ "b") = ["a"; "b"].
Proof. reflexivity. Qed.

Example strip_both_sides : strip "  a b  " = "a b".
Proof. reflexivity. Qed.

Example make_cmd_quotes :
  _make_cmd ["which"; "nvcc"; ""; "a b"] = "which nvcc '' 'a b'".
Proof. reflexivity. Qed.

(** ** The verdict parser *)

Lemma parse_line_unfold d line :
  parse_line d line =
  if line_kept line then <[line_key line := line_value line]> d else d.
Proof.
  unfold parse_line, line_kept, line_key, line_value.
  by destruct (partition_colon line) as [[key sep] value].
Qed.

Lemma partition_colon_cons c r :
  partition_colon (String c r) =
  if Ascii.eqb c colon then ("", String colon "", r)
  else let '(k, sep, v) := partition_colon r in (String c k, sep, v).
Proof. reflexivity. Qed.

(** The only lines the loop skips are the empty line and the line that
    is a single colon. *)
Lemma line_kept_false line :
  line_kept line = false ↔ line = "" ∨ line = ":".
Proof.
  unfold line_kept. destruct line as [|c r].
  - cbn. split; [by left|done].
  - rewrite partition_colon_cons. destruct (Ascii.eqb c colon) eqn:Hc.
    + apply Ascii.eqb_eq in Hc as ->. destruct r; cbn.
      * split; [by right|done].
      * split; [done|]. by intros [|].
    + destruct (partition_colon r) as [[k sep] v]; cbn.
      apply Ascii.eqb_neq in Hc. split; [done|].
      intros [Heq|Heq]; [done|]. injection Heq as -> _. by destruct Hc.
Qed.

Lemma parse_lines_snoc lines line d :
  fold_left parse_line (lines ++ [line]) d
  = parse_line (fold_left parse_line lines d) line.
Proof. by rewrite fold_left_app. Qed.

(** A key stays bound to its value while no later kept line has it. *)
Lemma parse_lines_preserve after (d : gmap string string) k v :
  d !! k = Some v →
  Forall (λ l, line_kept l = true → line_key l ≠ k) after →
  fold_left parse_line after d !! k = Some v.
Proof.
  revert d. induction after as [|l after IH]; intros d Hd Hafter; [done|].
  inversion Hafter as [|? ? Hl Hrest]; subst. cbn. apply IH; [|done].
  rewrite parse_line_unfold. destruct (line_kept l); [|done].
  rewrite lookup_insert_ne; [done|]. by apply Hl.
Qed.

Lemma parse_lines_last_wins before line after d :
  line_kept line = true →
  Forall (λ l, line_kept l = true → line_key l ≠ line_key line) after →
  fold_left parse_line (before ++ line :: after) d !! line_key line
  = Some (line_value line).
Proof.
  intros Hk Hafter. rewrite fold_left_app. cbn.
  apply parse_lines_preserve; [|done].
  rewrite parse_line_unfold, Hk. apply lookup_insert_eq.
Qed.

(** Every binding comes from the initial dictionary or from a kept
    line. *)
Lemma parse_lines_origin lines (d : gmap string string) k v :
  fold_left parse_line lines d !! k = Some v →
  d !! k = Some v
  ∨ ∃ line, line ∈ lines ∧ line_kept line = true
            ∧ line_key line = k ∧ line_value line = v.
Proof.
  revert d. induction lines as [|l lines IH]; intros d; cbn; [by left|].
  intros [Hd|(line & Hin & Hrest)]%IH.
  - rewrite parse_line_unfold in Hd. destruct (line_kept l) eqn:Hk; [|by left].
    destruct (decide (line_key l = k)) as [<-|Hne].
    + rewrite lookup_insert_eq in Hd. injection Hd as <-.
      right. exists l. split; [left|done].
    + rewrite lookup_insert_ne in Hd by done. by left.
  - right. exists line. split; [by right|done].
Qed.

(** C9. The payload made of the two lines [check: pass] and
    [score: 12.5], each ended by a newline, parses to exactly the mapping
    with [check] bound to [pass] and [score] bound to [12.5]. *)
Theorem parse_verdict_check_score :
  parse_verdict ("check: pass" +:+ nl +:+ "score: 12.5" +:+ nl)
  = {[ "check" := "pass"; "score" := "12.5" ]}.
Proof. vm_compute. reflexivity. Qed.

(** C4, as the claim states it, fails: a line holding one blank parses
    to an empty key and an empty value, and is stored all the same,
    because the loop tests the parts before it trims them. *)
Lemma blank_line_is_stored :
  ¬ (∀ payload line,
       line ∈ splitlines payload →
       line_key line = "" → line_value line = "" →
       parse_verdict payload !! line_key line ≠ Some (line_value line)).
Proof.
  intros H. apply (H " " " "); [left|reflexivity|reflexivity|].
  vm_compute. reflexivity.
Qed.

(** C4, amended. Each line is split on its first colon and both sides
    are trimmed. The lines left out of the result mapping are exactly
    the empty line and the line that is a single colon (both sides empty
    before trimming); every other line is stored under its trimmed key,
    also when a side is empty or blank, the last line of a key giving
    its value; and the mapping holds nothing else. *)
Theorem parse_verdict_lines payload :
  (∀ line, line_kept line = false ↔ line = "" ∨ line = ":")
  ∧ (∀ before line after,
       splitlines payload = (before ++ line :: after)%list →
       line_kept line = true →
       Forall (λ l, line_kept l = true → line_key l ≠ line_key line) after →
       parse_verdict payload !! line_key line = Some (line_value line))
  ∧ (∀ k v,
       parse_verdict payload !! k = Some v →
       ∃ line, line ∈ splitlines payload ∧ line_kept line = true
               ∧ line_key line = k ∧ line_value line = v).
Proof.
  split; [apply line_kept_false|]. split.
  - intros before line after Hsplit Hk Hafter.
    unfold parse_verdict, parse_lines. rewrite Hsplit.
    by apply parse_lines_last_wins.
  - intros k v Hkv. unfold parse_verdict, parse_lines in Hkv.
    apply parse_lines_origin in Hkv as [Hkv|Hkv]; [|done].
    by rewrite lookup_empty in Hkv.
Qed.

Lemma parse_verdict_lines_witness :
  parse_verdict ("a: 1" +:+ nl +:+ ":" +:+ nl +:+ " a : 2 " +:+ nl +:+ "b") !! "a"
  = Some "2".
Proof.
  apply (proj1 (proj2 (parse_verdict_lines
           ("a: 1" +:+ nl +:+ ":" +:+ nl +:+ " a : 2 " +:+ nl +:+ "b")))
         ["a: 1"; ":"] " a : 2 " ["b"]).
  - reflexivity.
  - reflexivity.
  - repeat constructor. intros _. vm_compute. discriminate.
Defined.

(** ** The process runner *)

(** Unfolding one step of the monad. *)
Ltac unfold_M :=
  unfold os_pipe, subprocess_run, check_output, spawn, popen, wait,
    perf_counter, os_close,
    fdopen_read, print, write_text, os_remove, os_path_exists, remove_if_exists,
    items_of, keys_of, subscript, try_finally, try_except, raise, hang,
    modify, get_world, fmap, M_fmap, mbind, M_bind, mret, M_ret.

Ltac simpl_M :=
  cbn -[fresh_fd parse_verdict universal_newlines pretty bool_decide
        _make_cmd strip].

(** A read before the parent has closed its write end never returns. *)
Example read_before_close_hangs w :
  (rw ← os_pipe; fdopen_read rw.1) w
  = (Hang,
     emit (EvRead (fresh_fd (pipes w)))
       (emit (EvPipe (fresh_fd (pipes w)) (fresh_fd (pipes w) + 1))
          (set_pipes ({| rfd := fresh_fd (pipes w);
                         wfd := fresh_fd (pipes w) + 1;
                         r_open := true; w_open := true;
                         child_w := false; buf := "" |}
                      :: pipes w) w))).
Proof. unfold_M. simpl_M. by rewrite Z.eqb_refl. Qed.

Section RunProgram.

Variable VALIDATE_FAIL : Z.
Variable exec :
  list string → gmap string string → list Z → gmap string string →
  option proc_exit.

Lemma run_program_exited args seed w p :
  exec args (child_env seed w) [fresh_fd (pipes w) + 1] (fs w) = Some p →
  ∃ w', run_program VALIDATE_FAIL exec args seed w
        = (Ok (run_result_of VALIDATE_FAIL args p), w')
        ∧ fs w' = p_fs p
        ∧ trace w' = (trace w ++ run_trace args seed w (returncode p))%list.
Proof.
  intros Hexec. unfold run_trace, child_env in *.
  assert (Hin : ∀ r : Z, bool_decide (r ∈ [r]) = true)
    by (intros; apply bool_decide_eq_true; left).
  remember (fresh_fd (pipes w)) as r eqn:Hr.
  unfold run_program. unfold_M. simpl_M. rewrite <- Hr. simpl_M.
  rewrite Hexec. simpl_M. repeat (rewrite !Hin; simpl_M).
  rewrite !Z.eqb_refl. simpl_M. rewrite !Z.eqb_refl. simpl_M.
  eexists. split.
  - unfold run_result_of. do 2 f_equal. f_equal. lia.
  - split; [reflexivity|]. cbn. by rewrite <- !app_assoc.
Qed.

Lemma run_program_not_started args seed w :
  exec args (child_env seed w) [fresh_fd (pipes w) + 1] (fs w) = None →
  ∃ w', run_program VALIDATE_FAIL exec args seed w
        = (Raise (FileNotFoundError (hd "" args)), w')
        ∧ fs w' = fs w.
Proof.
  intros Hexec. unfold child_env in *.
  remember (fresh_fd (pipes w)) as r eqn:Hr.
  unfold run_program. unfold_M. simpl_M. rewrite <- Hr. simpl_M.
  rewrite Hexec. simpl_M. by eexists.
Qed.

(** With children that exit, the read of [run_program] returns. *)
Lemma run_program_never_hangs args seed w :
  (run_program VALIDATE_FAIL exec args seed w).1 ≠ Hang.
Proof.
  destruct (exec args (child_env seed w) [fresh_fd (pipes w) + 1] (fs w))
    as [p|] eqn:Hexec.
  - apply run_program_exited in Hexec as (w' & -> & _). done.
  - apply run_program_not_started in Hexec as (w' & -> & _). done.
Qed.

(** C3. When [run_program] returns a result, its [passed] field is true
    exactly when the parsed verdict mapping binds [check] to [pass]; a
    child none of whose lines reports [check: pass], whatever its exit
    code (0 included), gets [passed = false]. *)
Theorem run_program_passed args seed w p :
  exec args (child_env seed w) [fresh_fd (pipes w) + 1] (fs w) = Some p →
  ∃ r w',
    run_program VALIDATE_FAIL exec args seed w = (Ok r, w')
    ∧ RunResult.result r = parse_verdict (universal_newlines (p_report p))
    ∧ (RunResult.passed r = true ↔ RunResult.result r !! "check" = Some "pass")
    ∧ ((∀ line, line ∈ splitlines (universal_newlines (p_report p)) →
                ¬ (line_key line = "check" ∧ line_value line = "pass")) →
       RunResult.passed r = false).
Proof.
  intros (w' & Hrun & _)%run_program_exited.
  eexists _, w'. split; [exact Hrun|]. split; [reflexivity|]. split.
  - cbn -[parse_verdict]. apply bool_decide_eq_true.
  - intros Hnone. cbn -[parse_verdict]. apply bool_decide_eq_false.
    unfold parse_verdict, parse_lines.
    intros [Hempty|(line & Hin & _ & Hk & Hv)]%parse_lines_origin.
    + by rewrite lookup_empty in Hempty.
    + by apply (Hnone line).
Qed.

(** C5. When [run_program] returns a result, its [exit_code] is the
    child's and its [success] field is true exactly when that code is
    [ExitCode.SUCCESS] (0) or [ExitCode.VALIDATE_FAIL]. *)
Theorem run_program_success args seed w p :
  exec args (child_env seed w) [fresh_fd (pipes w) + 1] (fs w) = Some p →
  ∃ r w',
    run_program VALIDATE_FAIL exec args seed w = (Ok r, w')
    ∧ RunResult.exit_code r = returncode p
    ∧ (RunResult.success r = true
       ↔ RunResult.exit_code r = 0 ∨ RunResult.exit_code r = VALIDATE_FAIL).
Proof.
  intros (w' & Hrun & _)%run_program_exited.
  eexists _, w'. split; [exact Hrun|]. split; [reflexivity|].
  cbn. unfold ExitCode.SUCCESS. rewrite orb_true_iff, !Z.eqb_eq. done.
Qed.


End RunProgram.



Lemma run_program_passed_witness :
  ∃ r w',
    run_program Demo.VALIDATE_FAIL (Demo.exec 0 0 0 Demo.pass_report)
      ["python"; "train.py"] 42 Demo.w0 = (Ok r, w')
    ∧ RunResult.result r = parse_verdict (universal_newlines Demo.pass_report)
    ∧ (RunResult.passed r = true ↔ RunResult.result r !! "check" = Some "pass")
    ∧ ((∀ line, line ∈ splitlines (universal_newlines Demo.pass_report) →
                ¬ (line_key line = "check" ∧ line_value line = "pass")) →
       RunResult.passed r = false).
Proof.
  apply (run_program_passed Demo.VALIDATE_FAIL (Demo.exec 0 0 0 Demo.pass_report)
           ["python"; "train.py"] 42 Demo.w0
           (Demo.exited 0 "ok" "" ∅ Demo.pass_report)).
  vm_compute. reflexivity.
Defined.

Lemma run_program_success_witness :
  ∃ r w',
    run_program Demo.VALIDATE_FAIL (Demo.exec 0 0 112 "check: fail")
      ["python"; "train.py"] 42 Demo.w0 = (Ok r, w')
    ∧ RunResult.exit_code r = 112
    ∧ (RunResult.success r = true
       ↔ RunResult.exit_code r = 0 ∨ RunResult.exit_code r = Demo.VALIDATE_FAIL).
Proof.
  apply (run_program_success Demo.VALIDATE_FAIL (Demo.exec 0 0 112 "check: fail")
           ["python"; "train.py"] 42 Demo.w0
           (Demo.exited 112 "ok" "" ∅ "check: fail")).
  vm_compute. reflexivity.
Defined.

(** ** The compiler driver *)

Section Compile.

Variable CUDA_FLAGS : list string.
Variable exec :
  list string → gmap string string → list Z → gmap string string →
  option proc_exit.


End Compile.


(** ** Writing and removing the submission files *)

Lemma bind_ok {A B} (m : M A) (f : A → M B) w a w1 :
  m w = (Ok a, w1) → (m ≫= f) w = f a w1.
Proof. unfold mbind, M_bind. by intros ->. Qed.

Lemma bind_raise {A B} (m : M A) (f : A → M B) w e w1 :
  m w = (Raise e, w1) → (m ≫= f) w = (Raise e, w1).
Proof. unfold mbind, M_bind. by intros ->. Qed.

Lemma for_write d w :
  for_ d (λ sc : string * string, write_text sc.1 sc.2) w = (Ok (), written d w).
Proof.
  revert w. induction d as [|[f c] d IH]; intros w; [done|].
  cbn [for_]. erewrite bind_ok by reflexivity. apply IH.
Qed.

Lemma remove_if_exists_step f w :
  remove_if_exists f w
  = (Ok (), if bool_decide (is_Some (fs w !! f))
            then emit (EvRemove f) (set_fs (delete f (fs w)) w) else w).
Proof.
  unfold remove_if_exists. unfold_M. simpl_M.
  destruct (bool_decide (is_Some (fs w !! f))) eqn:Hex; simpl_M; [|done].
  by rewrite Hex.
Qed.

Lemma for_clean l w :
  for_ l remove_if_exists w = (Ok (), cleaned l w).
Proof.
  revert w. induction l as [|f l IH]; intros w; [done|].
  cbn [for_]. erewrite bind_ok by apply remove_if_exists_step. apply IH.
Qed.

Lemma written_trace d w :
  trace (written d w) = (trace w ++ map (λ sc, EvWrite sc.1 sc.2) d)%list.
Proof.
  revert w. induction d as [|[f c] d IH]; intros w; cbn.
  - by rewrite app_nil_r.
  - unfold written in IH. rewrite IH. cbn. by rewrite <- app_assoc.
Qed.

Lemma written_keeps d w f c :
  f ∉ keys d → fs w !! f = Some c → fs (written d w) !! f = Some c.
Proof.
  revert w. induction d as [|[g c'] d IH]; intros w Hf Hw; [done|].
  cbn in *. apply not_elem_of_cons in Hf as [Hne Hf].
  apply IH; [done|]. cbn. by rewrite lookup_insert_ne.
Qed.

Lemma written_present d w f :
  f ∈ keys d → is_Some (fs (written d w) !! f).
Proof.
  revert w. induction d as [|[g c] d IH]; intros w Hf; cbn in *.
  - by apply elem_of_nil in Hf.
  - destruct (decide (f ∈ keys d)) as [Hin|Hnotin]; [by apply IH|].
    apply elem_of_cons in Hf as [->|Hf]; [|done].
    exists c. apply written_keeps; [done|]. cbn. apply lookup_insert_eq.
Qed.

Lemma written_mono d w f :
  is_Some (fs w !! f) → is_Some (fs (written d w) !! f).
Proof.
  revert w. induction d as [|[g c] d IH]; intros w Hf; [done|].
  cbn. apply IH. cbn. destruct (decide (g = f)) as [->|Hne].
  - rewrite lookup_insert_eq. by eexists.
  - by rewrite lookup_insert_ne.
Qed.

Lemma cleaned_stays_absent l w f :
  fs w !! f = None → fs (cleaned l w) !! f = None.
Proof.
  revert w. induction l as [|g l IH]; intros w Hf; [done|].
  cbn. apply IH. destruct (bool_decide _); [|done].
  cbn. destruct (decide (g = f)) as [->|Hne].
  - apply lookup_delete_eq.
  - by rewrite lookup_delete_ne.
Qed.

Lemma cleaned_absent l w f :
  f ∈ l → fs (cleaned l w) !! f = None.
Proof.
  revert w. induction l as [|g l IH]; intros w Hf.
  - by apply elem_of_nil in Hf.
  - apply elem_of_cons in Hf as [->|Hf]; [|by apply IH].
    cbn. apply cleaned_stays_absent.
    destruct (bool_decide (is_Some (fs w !! g))) eqn:Hex.
    + cbn. apply lookup_delete_eq.
    + apply bool_decide_eq_false in Hex. by apply eq_None_not_Some.
Qed.

Lemma cleaned_trace l w :
  ∃ removed, trace (cleaned l w) = (trace w ++ map EvRemove removed)%list.
Proof.
  revert w. induction l as [|g l IH]; intros w.
  - exists []. cbn. by rewrite app_nil_r.
  - cbn. destruct (bool_decide _).
    + destruct (IH (emit (EvRemove g) (set_fs (delete g (fs w)) w)))
        as [removed Hr].
      exists (g :: removed). unfold cleaned in Hr. rewrite Hr. cbn.
      by rewrite <- app_assoc.
    + apply IH.
Qed.

(** ** The two runners and the dispatcher *)

Section Runners.

Variable VALIDATE_FAIL : Z.
Variable CUDA_FLAGS : list string.
Variable exec :
  list string → gmap string string → list Z → gmap string string →
  option proc_exit.

(** The compiler driver creates no pipe. *)
Lemma compile_cuda_script_no_pipe files arch include_dirs verbose w :
  ∃ evs,
    trace (compile_cuda_script CUDA_FLAGS exec files arch include_dirs verbose w).2
    = (trace w ++ evs)%list
    ∧ Forall (λ e, is_pipe e = false) evs.
Proof.
  unfold compile_cuda_script. unfold_M.
  destruct verbose; simpl_M;
    repeat match goal with
      | |- context [exec ?a ?e ?f ?c] => destruct (exec a e f c); simpl_M
      | |- context [returncode ?p =? 0] => destruct (returncode p =? 0); simpl_M
      end;
    (eexists; split;
     [rewrite <- ?app_assoc; try reflexivity; symmetry; apply app_nil_r
     |repeat constructor]).
Qed.

Lemma cuda_finally_some sources headers w :
  cuda_finally sources (Some headers) w
  = (Ok (), cleaned (keys sources ++ keys headers) w).
Proof. unfold cuda_finally. cbn [keys_of]. apply for_clean. Qed.

(** C2. When compilation fails in a native job, [run_cuda_script]
    returns the failing compile result with the run result that has
    [success] and [passed] false, empty command and outputs, exit code
    -1, duration 0 and an empty mapping; after the compiler has returned
    only files are removed, and the whole call creates no pipe, so
    [run_program] is not invoked. *)
Theorem run_cuda_script_compile_fails sources headers arch include_dirs seed
    w cr w2 :
  compile_cuda_script CUDA_FLAGS exec (keys sources) arch
    (Some (default [] include_dirs)) true (written headers (written sources w))
  = (Ok cr, w2) →
  CompileResult.success cr = false →
  ∃ w',
    run_cuda_script VALIDATE_FAIL CUDA_FLAGS exec sources (Some headers) arch
      include_dirs seed w
    = (Ok (cr, {| RunResult.success := false; RunResult.passed := false;
                  RunResult.command := ""; RunResult.stdout := "";
                  RunResult.stderr := ""; RunResult.exit_code := -1;
                  RunResult.duration := 0; RunResult.result := ∅ |}), w')
    ∧ (∃ removed, trace w' = (trace w2 ++ map EvRemove removed)%list)
    ∧ (∃ evs, trace w' = (trace w ++ evs)%list
              ∧ Forall (λ e, is_pipe e = false) evs).
Proof.
  intros Hcompile Hfail.
  exists (cleaned (keys sources ++ keys headers) w2).
  assert (Htry : cuda_try CUDA_FLAGS exec sources (Some headers) arch
                   (default [] include_dirs) w = (Ok (inl (cr, not_run)), w2)).
  { unfold cuda_try. erewrite bind_ok by apply for_write.
    cbn [items_of]. erewrite bind_ok by reflexivity.
    erewrite bind_ok by apply for_write.
    erewrite bind_ok by exact Hcompile. by rewrite Hfail. }
  split; [|split].
  - unfold run_cuda_script.
    erewrite bind_ok
      by (unfold try_finally; rewrite Htry, cuda_finally_some; reflexivity).
    reflexivity.
  - apply cleaned_trace.
  - destruct (cleaned_trace (keys sources ++ keys headers) w2) as [removed ->].
    destruct (compile_cuda_script_no_pipe (keys sources) arch
                (Some (default [] include_dirs)) true
                (written headers (written sources w))) as (evs & Hevs & Hnp).
    rewrite Hcompile in Hevs. cbn in Hevs. rewrite Hevs, !written_trace.
    eexists. split; [by rewrite <- !app_assoc|].
    repeat apply Forall_app_2; [| |done|]; by apply Forall_map, Forall_true.
Qed.


(** What the cleanup does when [headers] is a dict: a job whose
    compilation succeeds starts the artifact in a working directory from
    which every source and header is gone. *)
Lemma run_cuda_script_runs_after_cleanup sources headers arch include_dirs seed
    w cr w2 :
  compile_cuda_script CUDA_FLAGS exec (keys sources) arch
    (Some (default [] include_dirs)) true (written headers (written sources w))
  = (Ok cr, w2) →
  CompileResult.success cr = true →
  run_cuda_script VALIDATE_FAIL CUDA_FLAGS exec sources (Some headers) arch
    include_dirs seed w
  = (pair cr <$> run_program VALIDATE_FAIL exec ["./eval.out"] seed)
      (cleaned (keys sources ++ keys headers) w2)
  ∧ ∀ f, f ∈ (keys sources ++ keys headers)%list →
         fs (cleaned (keys sources ++ keys headers) w2) !! f = None.
Proof.
  intros Hcompile Hok. split; [|intros f Hf; by apply cleaned_absent].
  assert (Htry : cuda_try CUDA_FLAGS exec sources (Some headers) arch
                   (default [] include_dirs) w = (Ok (inr cr), w2)).
  { unfold cuda_try. erewrite bind_ok by apply for_write.
    cbn [items_of]. erewrite bind_ok by reflexivity.
    erewrite bind_ok by apply for_write.
    erewrite bind_ok by exact Hcompile. by rewrite Hok. }
  unfold run_cuda_script.
  erewrite bind_ok
    by (unfold try_finally; rewrite Htry, cuda_finally_some; reflexivity).
  reflexivity.
Qed.

(** The scripted runner leaves none of its sources behind, whatever
    happens. *)
Lemma run_pytorch_script_removes sources main arch seed w f :
  f ∈ keys sources →
  fs (run_pytorch_script VALIDATE_FAIL exec sources main arch seed w).2 !! f
  = None.
Proof.
  intros Hf. unfold run_pytorch_script, try_finally.
  destruct (bool_decide (main ∈ keys sources)).
  - erewrite bind_ok by reflexivity. erewrite bind_ok by apply for_write.
    pose proof (run_program_never_hangs VALIDATE_FAIL exec ["python"; main]
                  seed (written sources w)) as Hnh.
    destruct (run_program _ _ _ _ _) as [[r|e|] w1]; [| |done];
      rewrite for_clean; by apply cleaned_absent.
  - erewrite bind_raise by reflexivity. rewrite for_clean.
    by apply cleaned_absent.
Qed.

(** C8. When the language of the job is neither [py] nor [cu],
    [run_config] raises [ValueError] in the world it was called in: no
    file has been written, nothing has been run, and no runner has been
    chosen in its place. *)
Theorem run_config_invalid_language config lang w :
  cfg_lang config = Some lang →
  lang ≠ "py" → lang ≠ "cu" →
  run_config VALIDATE_FAIL CUDA_FLAGS exec config w
  = (Raise (ValueError ("Invalid language " +:+ lang)), w).
Proof.
  intros Hlang Hpy%String.eqb_neq Hcu%String.eqb_neq.
  unfold run_config. rewrite Hlang. cbn [subscript].
  erewrite bind_ok by reflexivity. by rewrite Hpy, Hcu.
Qed.

End Runners.

Lemma run_cuda_script_compile_fails_witness :
  ∃ cr w',
    run_cuda_script Demo.VALIDATE_FAIL Demo.CUDA_FLAGS (Demo.exec 0 1 0 "")
      [("kernel.cu", "__global__ void k() {")] (Some [("ref.h", "#pragma once")])
      None None 42 Demo.w0
    = (Ok (cr, not_run), w')
    ∧ CompileResult.success cr = false
    ∧ CompileResult.exit_code cr = 1
    ∧ fs w' = ∅.
Proof.
  edestruct (run_cuda_script_compile_fails Demo.VALIDATE_FAIL Demo.CUDA_FLAGS
               (Demo.exec 0 1 0 "")
               [("kernel.cu", "__global__ void k() {")]
               [("ref.h", "#pragma once")] None None 42 Demo.w0)
    as (w' & Hrun & _).
  - vm_compute. reflexivity.
  - reflexivity.
  - eexists _, w'. split; [exact Hrun|]. split; [reflexivity|].
    split; [reflexivity|].
    apply (f_equal snd) in Hrun. cbn [snd] in Hrun. rewrite <- Hrun.
    vm_compute. reflexivity.
Defined.


Lemma run_config_invalid_language_witness :
  run_config Demo.VALIDATE_FAIL Demo.CUDA_FLAGS (Demo.exec 0 0 0 Demo.pass_report)
    {| cfg_lang := Some "zz"; cfg_sources := Some [("a.zz", "x")];
       cfg_main := None; cfg_headers := None; cfg_arch := None;
       cfg_include_dirs := None |} Demo.w0
  = (Raise (ValueError "Invalid language zz"), Demo.w0).
Proof.
  apply (run_config_invalid_language Demo.VALIDATE_FAIL Demo.CUDA_FLAGS
           (Demo.exec 0 0 0 Demo.pass_report) _ "zz" Demo.w0);
    [reflexivity | discriminate | discriminate].
Defined.

(** C1 fails on the native path when [headers] keeps its default: the
    source written for the attempt is still in the working directory
    when the call ends, and nothing was removed. *)
Theorem run_cuda_script_default_headers_leaves_sources :
  let out :=
    run_cuda_script Demo.VALIDATE_FAIL Demo.CUDA_FLAGS
      (Demo.exec 0 0 0 Demo.pass_report)
      [("kernel.cu", "__global__ void k() {}")] None None None 42 Demo.w0 in
  out.1 = Raise (AttributeError "'NoneType' object has no attribute 'keys'")
  ∧ fs out.2 !! "kernel.cu" = Some "__global__ void k() {}"
  ∧ trace out.2 = [EvWrite "kernel.cu" "__global__ void k() {}"].
Proof. vm_compute. repeat split. Qed.

(** The same job with [headers] an empty dict runs to its end and
    leaves only the artifact. *)
Example run_cuda_script_empty_headers_cleans :
  let out :=
    run_cuda_script Demo.VALIDATE_FAIL Demo.CUDA_FLAGS
      (Demo.exec 0 0 0 Demo.pass_report)
      [("kernel.cu", "__global__ void k() {}")] (Some []) None None 42 Demo.w0 in
  fs out.2 = {[ "eval.out" := "ELF" ]}
  ∧ (∃ cr rr, out.1 = Ok (cr, rr) ∧ RunResult.passed rr = true).
Proof. vm_compute. split; [reflexivity|]. by eexists _, _. Qed.

(** * Further properties of the code *)

(** ** Strings: trimming and splitting *)

Lemma chars_rev_onto s acc :
  chars (rev_onto s acc) = (rev (chars s) ++ chars acc)%list.
Proof.
  revert acc. induction s as [|c s IH]; intros acc; cbn; [done|].
  rewrite IH. cbn. by rewrite <- app_assoc.
Qed.

Lemma chars_reverse s : chars (reverse s) = rev (chars s).
Proof. unfold reverse. rewrite chars_rev_onto. cbn. apply app_nil_r. Qed.

Lemma chars_lstrip s : chars (lstrip s) = drop_spaces (chars s).
Proof. induction s as [|c s IH]; cbn; [done|]. by destruct (is_space c). Qed.

Lemma chars_strip s :
  chars (strip s) = rev (drop_spaces (rev (drop_spaces (chars s)))).
Proof.
  unfold strip, rstrip.
  by rewrite chars_reverse, chars_lstrip, chars_reverse, chars_lstrip.
Qed.

Lemma chars_inj s t : chars s = chars t → s = t.
Proof.
  intros H. rewrite <- (string_of_list_ascii_of_string s),
    <- (string_of_list_ascii_of_string t). by f_equal.
Qed.

Lemma drop_spaces_head l : no_space_head (drop_spaces l).
Proof.
  induction l as [|c l IH]; cbn; [done|].
  destruct (is_space c) eqn:Hc; [done|]. exact Hc.
Qed.

Lemma drop_spaces_id l : no_space_head l → drop_spaces l = l.
Proof. destruct l as [|c l]; cbn; [done|]. by intros ->. Qed.

Lemma drop_spaces_snoc l c :
  is_space c = false → drop_spaces (l ++ [c]) = (drop_spaces l ++ [c])%list.
Proof.
  intros Hc. induction l as [|d l IH]; cbn; [by rewrite Hc|].
  by destruct (is_space d).
Qed.

Lemma drop_spaces_sub l c : c ∈ drop_spaces l → c ∈ l.
Proof.
  induction l as [|d l IH]; cbn; [done|].
  destruct (is_space d); [|done]. intros H. right. by apply IH.
Qed.

(** Trimming the right end keeps a non-blank first character. *)
Lemma rstrip_keeps_head l :
  no_space_head l → no_space_head (rev (drop_spaces (rev l))).
Proof.
  destruct l as [|c l]; cbn; [done|]. intros Hc.
  rewrite drop_spaces_snoc by done. by rewrite rev_app_distr.
Qed.

Lemma elem_of_rev (l : list ascii) c : c ∈ rev l ↔ c ∈ l.
Proof. rewrite !list_elem_of_In. symmetry. apply in_rev. Qed.

Lemma strip_chars_sub s c : c ∈ chars (strip s) → c ∈ chars s.
Proof.
  rewrite chars_strip. rewrite elem_of_rev.
  intros H%drop_spaces_sub. rewrite elem_of_rev in H.
  by apply drop_spaces_sub.
Qed.

Lemma strip_idempotent s : strip (strip s) = strip s.
Proof.
  apply chars_inj. rewrite (chars_strip (strip s)), !chars_strip.
  set (a := drop_spaces (chars s)).
  assert (Ha : no_space_head a) by apply drop_spaces_head.
  rewrite (drop_spaces_id (rev (drop_spaces (rev a))))
    by by apply rstrip_keeps_head.
  rewrite rev_involutive.
  rewrite (drop_spaces_id (drop_spaces (rev a))) by apply drop_spaces_head.
  done.
Qed.

Lemma partition_colon_key_no_colon s : colon ∉ chars (partition_colon s).1.1.
Proof.
  induction s as [|c s IH]; [cbn; apply not_elem_of_nil|].
  rewrite partition_colon_cons. destruct (Ascii.eqb c colon) eqn:Hc.
  - cbn. apply not_elem_of_nil.
  - destruct (partition_colon s) as [[k sep] v]. cbn in *.
    apply Ascii.eqb_neq in Hc. apply not_elem_of_cons. split; [congruence|done].
Qed.

Lemma partition_colon_none s :
  colon ∉ chars s → partition_colon s = (s, "", "").
Proof.
  induction s as [|c s IH]; [done|]. cbn [list_ascii_of_string].
  intros [Hc Hs]%not_elem_of_cons. rewrite partition_colon_cons.
  destruct (Ascii.eqb c colon) eqn:Heq.
  - apply Ascii.eqb_eq in Heq. congruence.
  - by rewrite IH.
Qed.

Lemma partition_colon_first k v :
  colon ∉ chars k →
  partition_colon (k +:+ String colon v) = (k, String colon "", v).
Proof.
  induction k as [|c k IH].
  - intros _. change ("" +:+ String colon v) with (String colon v).
    rewrite partition_colon_cons. by rewrite Ascii.eqb_refl.
  - cbn [list_ascii_of_string]. intros [Hc Hk]%not_elem_of_cons.
    change (String c k +:+ String colon v)
      with (String c (k +:+ String colon v)).
    rewrite partition_colon_cons.
    destruct (Ascii.eqb c colon) eqn:Heq.
    + apply Ascii.eqb_eq in Heq. congruence.
    + by rewrite IH.
Qed.

(** ** The verdict parser, further *)

(** X1. Every key and every value of the verdict mapping is trimmed:
    it has no white space at either end. *)
Theorem parse_verdict_trimmed payload k v :
  parse_verdict payload !! k = Some v → strip k = k ∧ strip v = v.
Proof.
  unfold parse_verdict, parse_lines.
  intros [Hempty|(line & _ & _ & <- & <-)]%parse_lines_origin.
  - by rewrite lookup_empty in Hempty.
  - unfold line_key, line_value. by rewrite !strip_idempotent.
Qed.

Lemma parse_verdict_trimmed_witness :
  strip "check" = "check" ∧ strip "pass" = "pass".
Proof.
  apply (parse_verdict_trimmed ("  check :  pass  " +:+ nl)).
  vm_compute. reflexivity.
Defined.

(** X2. No key of the verdict mapping contains a colon: a line is cut
    at its first colon. *)
Theorem parse_verdict_key_no_colon payload k v :
  parse_verdict payload !! k = Some v → colon ∉ chars k.
Proof.
  unfold parse_verdict, parse_lines.
  intros [Hempty|(line & _ & _ & <- & _)]%parse_lines_origin.
  - by rewrite lookup_empty in Hempty.
  - intros Hc%strip_chars_sub. by apply (partition_colon_key_no_colon line).
Qed.

Lemma parse_verdict_key_no_colon_witness : colon ∉ chars "time".
Proof.
  apply (parse_verdict_key_no_colon ("time: 12:30:05" +:+ nl) "time" "12:30:05").
  vm_compute. reflexivity.
Defined.

(** X3. A line made of a text without colon, a colon and any text is
    stored under the trimmed first text with the trimmed rest as value,
    further colons included, unless both texts are empty. *)
Theorem parse_line_first_colon d k v :
  colon ∉ chars k → k ≠ "" ∨ v ≠ "" →
  parse_line d (k +:+ ":" +:+ v) = <[strip k := strip v]> d.
Proof.
  intros Hk Hne. unfold parse_line.
  change (":" +:+ v) with (String colon v).
  rewrite partition_colon_first by done.
  destruct (String.eqb k "") eqn:Ek, (String.eqb v "") eqn:Ev; try done.
  apply String.eqb_eq in Ek, Ev. by destruct Hne.
Qed.

Lemma parse_line_first_colon_witness :
  parse_line ∅ "time : 12:30:05 " = {[ "time" := "12:30:05" ]}.
Proof.
  apply (parse_line_first_colon ∅ "time " " 12:30:05 ").
  - vm_compute. intros H. repeat (apply elem_of_cons in H as [H|H];
      [discriminate|]). by apply elem_of_nil in H.
  - left. discriminate.
Defined.

(** X4. A line that has no colon and is not empty is stored under its
    trimmed text with the empty value. *)
Theorem parse_line_without_colon d line :
  colon ∉ chars line → line ≠ "" →
  parse_line d line = <[strip line := ""]> d.
Proof.
  intros Hc Hne. unfold parse_line. rewrite partition_colon_none by done.
  destruct (String.eqb line "") eqn:El; [|done].
  by apply String.eqb_eq in El.
Qed.

Lemma parse_line_without_colon_witness :
  parse_line ∅ " done " = {[ "done" := "" ]}.
Proof.
  apply (parse_line_without_colon ∅ " done ").
  - vm_compute. intros H. repeat (apply elem_of_cons in H as [H|H];
      [discriminate|]). by apply elem_of_nil in H.
  - discriminate.
Defined.

(** ** Command lines *)

Lemma quote_safe a : a ≠ "" → all_safe a = true → quote a = a.
Proof. destruct a; [done|]. intros _ Hs. unfold quote. by rewrite Hs. Qed.

(** X5. Arguments that are not empty and made of letters, digits and
    [_@%+=:,./-] only are shown as they are, separated by single
    spaces. *)
Theorem make_cmd_safe_args args :
  Forall (λ a, a ≠ "" ∧ all_safe a = true) args →
  _make_cmd args = join " " args.
Proof.
  intros Hargs. unfold _make_cmd. f_equal.
  induction Hargs as [|a args [Hne Hs] _ IH]; [done|].
  cbn. by rewrite quote_safe, IH.
Qed.

Lemma make_cmd_safe_args_witness :
  _make_cmd ["nvcc"; "-O3"; "kernel.cu"; "-o"; "eval.out"]
  = "nvcc -O3 kernel.cu -o eval.out".
Proof.
  apply (make_cmd_safe_args ["nvcc"; "-O3"; "kernel.cu"; "-o"; "eval.out"]).
  repeat constructor; discriminate.
Defined.

(** ** The compiler driver, further *)

Section CompileMore.

Variable CUDA_FLAGS : list string.
Variable exec :
  list string → gmap string string → list Z → gmap string string →
  option proc_exit.

(** Case analysis on every child the driver may start. *)
Ltac compile_cases :=
  repeat match goal with
    | |- context [exec ?a ?e ?f ?c] =>
        let E := fresh "Hexec" in destruct (exec a e f c) eqn:E; simpl_M
    | |- context [returncode ?p =? 0] =>
        let E := fresh "Hrc" in destruct (returncode p =? 0) eqn:E; simpl_M
    end.

(** X6. When the compiler is found and answers [--version], the driver
    runs one command: the compiler's path (the trimmed output of
    [which]), the fixed flags, the include directories, the files, the
    architecture flag, [-o eval.out]. Its result carries that command,
    quoted, the version text, the outputs and the exit code of the
    compiler, and [success] exactly when that code is 0. *)
Theorem compile_cuda_script_found files arch include_dirs verbose w p1 p2 p3 :
  exec ["which"; "nvcc"] (environ w) [] (fs w) = Some p1 →
  returncode p1 = 0 →
  exec ["nvcc"; "--version"] (environ w) [] (p_fs p1) = Some p2 →
  returncode p2 = 0 →
  exec (compile_command CUDA_FLAGS (strip (p_stdout p1))
          (default [] include_dirs) files arch)
       (environ w) [] (p_fs p2) = Some p3 →
  ∃ w',
    compile_cuda_script CUDA_FLAGS exec files arch include_dirs verbose w
    = (Ok {| CompileResult.nvcc_found := true;
             CompileResult.nvcc_version := p_stdout p2;
             CompileResult.success := (returncode p3 =? 0);
             CompileResult.command :=
               _make_cmd (compile_command CUDA_FLAGS (strip (p_stdout p1))
                            (default [] include_dirs) files arch);
             CompileResult.stdout := Some (p_stdout p3);
             CompileResult.stderr := Some (p_stderr p3);
             CompileResult.exit_code := returncode p3 |}, w')
    ∧ fs w' = p_fs p3.
Proof.
  intros H1 Hrc1 H2 Hrc2 H3. apply Z.eqb_eq in Hrc1, Hrc2.
  unfold compile_command, arch_flag in *. cbn [app] in H3.
  unfold compile_cuda_script. unfold_M.
  destruct verbose; simpl_M; rewrite H1; simpl_M; rewrite Hrc1; simpl_M;
    rewrite H2; simpl_M; rewrite Hrc2; simpl_M; rewrite H3; simpl_M;
    destruct (returncode p3 =? 0); simpl_M; by eexists.
Qed.

(** X7. When the compiler is found but [nvcc --version] exits with a
    code other than 0, the result says the compiler was not found:
    [nvcc_found] is false, and the command reported is the version
    query. *)
Theorem compile_cuda_script_version_fails files arch include_dirs verbose w
    p1 p2 :
  exec ["which"; "nvcc"] (environ w) [] (fs w) = Some p1 →
  returncode p1 = 0 →
  exec ["nvcc"; "--version"] (environ w) [] (p_fs p1) = Some p2 →
  returncode p2 ≠ 0 →
  ∃ w',
    compile_cuda_script CUDA_FLAGS exec files arch include_dirs verbose w
    = (Ok {| CompileResult.nvcc_found := false;
             CompileResult.nvcc_version := "";
             CompileResult.success := false;
             CompileResult.command := "nvcc --version";
             CompileResult.stdout := Some (p_stdout p2);
             CompileResult.stderr := None;
             CompileResult.exit_code := returncode p2 |}, w').
Proof.
  intros H1 Hrc1 H2 Hrc2. apply Z.eqb_eq in Hrc1. apply Z.eqb_neq in Hrc2.
  unfold compile_cuda_script. unfold_M.
  destruct verbose; simpl_M; rewrite H1; simpl_M; rewrite Hrc1; simpl_M;
    rewrite H2; simpl_M; rewrite Hrc2; simpl_M; by eexists.
Qed.

(** X8. In every result the driver returns, [success] holds exactly
    when the exit code is 0, and a result with [nvcc_found] false has
    [success] false and an empty version. *)
Theorem compile_cuda_script_result_invariant files arch include_dirs verbose
    w cr w' :
  compile_cuda_script CUDA_FLAGS exec files arch include_dirs verbose w
  = (Ok cr, w') →
  CompileResult.success cr = (CompileResult.exit_code cr =? 0)
  ∧ (CompileResult.nvcc_found cr = false →
     CompileResult.success cr = false ∧ CompileResult.nvcc_version cr = "").
Proof.
  unfold compile_cuda_script. unfold_M.
  destruct verbose; simpl_M; compile_cases;
    intros [= <- <-]; cbn; rewrite ?Z.eqb_refl; try done;
    try (split; [symmetry; assumption|done]).
Qed.


(** X10. [verbose] changes what is printed and nothing else: the
    outcome and the working directory are the same with and without
    it. *)
Theorem compile_cuda_script_verbose files arch include_dirs w :
  (compile_cuda_script CUDA_FLAGS exec files arch include_dirs false w).1
  = (compile_cuda_script CUDA_FLAGS exec files arch include_dirs true w).1
  ∧ fs (compile_cuda_script CUDA_FLAGS exec files arch include_dirs false w).2
    = fs (compile_cuda_script CUDA_FLAGS exec files arch include_dirs true w).2.
Proof.
  unfold compile_cuda_script. unfold_M. simpl_M. compile_cases; done.
Qed.

End CompileMore.

Lemma compile_cuda_script_found_witness :
  ∃ w',
    compile_cuda_script Demo.CUDA_FLAGS (Demo.exec 0 0 0 "")
      ["a.cu"; "b.cu"] (Some 80) (Some ["/opt/tk/include"]) false Demo.w0
    = (Ok {| CompileResult.nvcc_found := true;
             CompileResult.nvcc_version := "Cuda compilation tools, release 12.4";
             CompileResult.success := true;
             CompileResult.command :=
               "/usr/local/cuda/bin/nvcc --std=c++20 -O3 /opt/tk/include a.cu b.cu -gencode=arch=compute_80,code=sm_80 -o eval.out";
             CompileResult.stdout := Some "";
             CompileResult.stderr := Some "";
             CompileResult.exit_code := 0 |}, w')
    ∧ fs w' = {[ "eval.out" := "ELF" ]}.
Proof.
  destruct (compile_cuda_script_found Demo.CUDA_FLAGS (Demo.exec 0 0 0 "")
              ["a.cu"; "b.cu"] (Some 80) (Some ["/opt/tk/include"]) false
              Demo.w0
              (Demo.exited 0 (Demo.nvcc_path +:+ nl) "" ∅ "")
              (Demo.exited 0 "Cuda compilation tools, release 12.4" "" ∅ "")
              (Demo.exited 0 "" "" {[ "eval.out" := "ELF" ]} ""))
    as (w' & Hc & Hfs); try (vm_compute; reflexivity).
  exists w'. split; [|exact Hfs]. rewrite Hc. vm_compute. reflexivity.
Defined.

Lemma compile_cuda_script_version_fails_witness :
  ∃ w',
    compile_cuda_script Demo.CUDA_FLAGS
      (Demo.exec_table
         [(["which"; "nvcc"], Demo.exited 0 "/usr/bin/nvcc" "" ∅ "");
          (["nvcc"; "--version"], Demo.exited 126 "" "cannot execute" ∅ "")])
      ["a.cu"] None None true Demo.w0
    = (Ok {| CompileResult.nvcc_found := false;
             CompileResult.nvcc_version := "";
             CompileResult.success := false;
             CompileResult.command := "nvcc --version";
             CompileResult.stdout := Some "";
             CompileResult.stderr := None;
             CompileResult.exit_code := 126 |}, w').
Proof.
  apply (compile_cuda_script_version_fails Demo.CUDA_FLAGS _ ["a.cu"] None None
           true Demo.w0 (Demo.exited 0 "/usr/bin/nvcc" "" ∅ "")
           (Demo.exited 126 "" "cannot execute" ∅ ""));
    vm_compute; (reflexivity || discriminate).
Defined.

Lemma compile_cuda_script_result_invariant_witness :
  ∃ cr w',
    compile_cuda_script Demo.CUDA_FLAGS (Demo.exec 0 1 0 "")
      ["a.cu"] None None true Demo.w0 = (Ok cr, w')
    ∧ CompileResult.nvcc_found cr = true
    ∧ CompileResult.exit_code cr = 1
    ∧ CompileResult.success cr = (CompileResult.exit_code cr =? 0).
Proof.
  eexists _, _. split; [vm_compute; reflexivity|].
  split; [reflexivity|]. split; [reflexivity|].
  eapply proj1, (compile_cuda_script_result_invariant Demo.CUDA_FLAGS
                   (Demo.exec 0 1 0 "") ["a.cu"] None None true Demo.w0).
  vm_compute. reflexivity.
Defined.

(** ** The process runner, further *)

Section RunProgramMore.

Variable VALIDATE_FAIL : Z.
Variable exec :
  list string → gmap string string → list Z → gmap string string →
  option proc_exit.

(** X11. The child gets the parent's environment with two variables
    set: [POPCORN_FD], the number of the write end of the new pipe (the
    one descriptor passed to it), and [POPCORN_SEED], the seed, both in
    decimal. The parent's own environment is left as it was. *)
Theorem run_program_child_environment args seed w :
  ∃ rd fd env evs,
    trace (run_program VALIDATE_FAIL exec args seed w).2
    = (trace w ++ EvPipe rd fd :: EvExec args env [fd] (fs w) :: evs)%list
    ∧ env !! "POPCORN_FD" = Some (pretty fd)
    ∧ env !! "POPCORN_SEED" = Some (pretty seed)
    ∧ (∀ k, k ≠ "POPCORN_FD" → k ≠ "POPCORN_SEED" →
            env !! k = environ w !! k)
    ∧ environ (run_program VALIDATE_FAIL exec args seed w).2 = environ w.
Proof.
  exists (fresh_fd (pipes w)), (fresh_fd (pipes w) + 1), (child_env seed w).
  assert (Hin : ∀ r : Z, bool_decide (r ∈ [r]) = true)
    by (intros; apply bool_decide_eq_true; left).
  assert (Henv :
    child_env seed w !! "POPCORN_FD" = Some (pretty (fresh_fd (pipes w) + 1))
    ∧ child_env seed w !! "POPCORN_SEED" = Some (pretty seed)
    ∧ (∀ k, k ≠ "POPCORN_FD" → k ≠ "POPCORN_SEED" →
            child_env seed w !! k = environ w !! k)).
  { unfold child_env. split; [|split].
    - rewrite lookup_insert_ne by done. apply lookup_insert_eq.
    - apply lookup_insert_eq.
    - intros k H1 H2. by rewrite !lookup_insert_ne. }
  destruct Henv as (Hfd & Hseed & Hother).
  unfold child_env in *. remember (fresh_fd (pipes w)) as r eqn:Hr.
  unfold run_program. unfold_M. simpl_M. rewrite <- Hr. simpl_M.
  destruct (exec _ _ _ _) as [p|]; simpl_M.
  - repeat (rewrite !Hin; simpl_M). rewrite !Z.eqb_refl. simpl_M.
    rewrite !Z.eqb_refl. simpl_M.
    eexists. split; [rewrite <- !app_assoc; reflexivity|].
    split; [exact Hfd|]. split; [exact Hseed|]. split; [exact Hother|done].
  - eexists. split; [rewrite <- !app_assoc; reflexivity|].
    split; [exact Hfd|]. split; [exact Hseed|]. split; [exact Hother|done].
Qed.

(** X12. When the program cannot be started, [run_program] raises
    [FileNotFoundError] after the pipe is made and before anything is
    closed: both ends of the new pipe stay open in the parent, and the
    working directory is untouched. *)
Theorem run_program_not_started_leaks_pipe args seed w :
  exec args (child_env seed w) [fresh_fd (pipes w) + 1] (fs w) = None →
  ∃ w',
    run_program VALIDATE_FAIL exec args seed w
    = (Raise (FileNotFoundError (hd "" args)), w')
    ∧ pipes w' = new_pipe w :: pipes w
    ∧ trace w' = (trace w ++
                  [EvPipe (fresh_fd (pipes w)) (fresh_fd (pipes w) + 1);
                   EvExec args (child_env seed w) [fresh_fd (pipes w) + 1]
                     (fs w)])%list
    ∧ fs w' = fs w.
Proof.
  intros Hexec. unfold child_env, new_pipe in *.
  remember (fresh_fd (pipes w)) as r eqn:Hr.
  unfold run_program. unfold_M. simpl_M. rewrite <- Hr. simpl_M.
  rewrite Hexec. simpl_M. eexists. split; [reflexivity|]. cbn.
  by rewrite <- !app_assoc.
Qed.

End RunProgramMore.

Lemma run_program_not_started_leaks_pipe_witness :
  ∃ w',
    run_program Demo.VALIDATE_FAIL (Demo.exec_table []) ["./eval.out"] 42 Demo.w0
    = (Raise (FileNotFoundError "./eval.out"), w')
    ∧ (∃ p, pipes w' = [p] ∧ r_open p = true ∧ w_open p = true)
    ∧ fs w' = ∅.
Proof.
  destruct (run_program_not_started_leaks_pipe Demo.VALIDATE_FAIL
              (Demo.exec_table []) ["./eval.out"] 42 Demo.w0)
    as (w' & Hrun & Hpipes & _ & Hfs); [reflexivity|].
  exists w'. split; [exact Hrun|]. split; [|exact Hfs].
  exists (new_pipe Demo.w0). by rewrite Hpipes.
Defined.

(** ** The runners, further *)

Lemma written_other d w f :
  f ∉ keys d → fs (written d w) !! f = fs w !! f.
Proof.
  revert w. induction d as [|[g c] d IH]; intros w Hf; [done|].
  cbn in *. apply not_elem_of_cons in Hf as [Hne Hf].
  rewrite IH by done. cbn. by rewrite lookup_insert_ne.
Qed.

Lemma cleaned_other l w f :
  f ∉ l → fs (cleaned l w) !! f = fs w !! f.
Proof.
  revert w. induction l as [|g l IH]; intros w Hf; [done|].
  apply not_elem_of_cons in Hf as [Hne Hf]. cbn. rewrite IH by done.
  destruct (bool_decide _); [|done]. cbn. by rewrite lookup_delete_ne.
Qed.

Section RunnersMore.

Variable VALIDATE_FAIL : Z.
Variable CUDA_FLAGS : list string.
Variable exec :
  list string → gmap string string → list Z → gmap string string →
  option proc_exit.

(** X13. In a native job whose compilation succeeds, [./eval.out] is
    started in a working directory that holds none of the sources and
    headers, and the call returns the compile result with the result of
    that run. *)
Theorem run_cuda_script_artifact_runs_clean sources headers arch include_dirs
    seed w cr w2 p :
  compile_cuda_script CUDA_FLAGS exec (keys sources) arch
    (Some (default [] include_dirs)) true (written headers (written sources w))
  = (Ok cr, w2) →
  CompileResult.success cr = true →
  exec ["./eval.out"]
    (child_env seed (cleaned (keys sources ++ keys headers) w2))
    [fresh_fd (pipes (cleaned (keys sources ++ keys headers) w2)) + 1]
    (fs (cleaned (keys sources ++ keys headers) w2)) = Some p →
  ∃ w',
    run_cuda_script VALIDATE_FAIL CUDA_FLAGS exec sources (Some headers) arch
      include_dirs seed w
    = (Ok (cr, run_result_of VALIDATE_FAIL ["./eval.out"] p), w')
    ∧ (∀ f, f ∈ (keys sources ++ keys headers)%list →
            fs (cleaned (keys sources ++ keys headers) w2) !! f = None)
    ∧ fs w' = p_fs p.
Proof.
  intros Hcompile Hok Hexec.
  destruct (run_cuda_script_runs_after_cleanup VALIDATE_FAIL CUDA_FLAGS exec
              sources headers arch include_dirs seed w cr w2 Hcompile Hok)
    as [Hrun Habsent].
  destruct (run_program_exited VALIDATE_FAIL exec _ _ _ _ Hexec)
    as (w' & Hprog & Hfs & _).
  exists w'. split; [|done]. rewrite Hrun.
  unfold fmap, M_fmap. erewrite bind_ok by exact Hprog. done.
Qed.

(** X14. When the compiler driver raises in a native job whose headers
    are a dict, the sources and headers are removed and the same
    exception leaves [run_cuda_script]. *)
Theorem run_cuda_script_compile_raises sources headers arch include_dirs seed
    w e w2 :
  compile_cuda_script CUDA_FLAGS exec (keys sources) arch
    (Some (default [] include_dirs)) true (written headers (written sources w))
  = (Raise e, w2) →
  run_cuda_script VALIDATE_FAIL CUDA_FLAGS exec sources (Some headers) arch
    include_dirs seed w
  = (Raise e, cleaned (keys sources ++ keys headers) w2)
  ∧ ∀ f, f ∈ (keys sources ++ keys headers)%list →
         fs (cleaned (keys sources ++ keys headers) w2) !! f = None.
Proof.
  intros Hcompile. split; [|intros f Hf; by apply cleaned_absent].
  assert (Htry : cuda_try CUDA_FLAGS exec sources (Some headers) arch
                   (default [] include_dirs) w = (Raise e, w2)).
  { unfold cuda_try. erewrite bind_ok by apply for_write.
    cbn [items_of]. erewrite bind_ok by reflexivity.
    erewrite bind_ok by apply for_write.
    by erewrite bind_raise by exact Hcompile. }
  unfold run_cuda_script.
  erewrite bind_raise
    by (unfold try_finally; rewrite Htry, cuda_finally_some; reflexivity).
  reflexivity.
Qed.

(** X15. When [main] is not one of the sources, [run_pytorch_script]
    raises [AssertionError] without writing or running anything; its
    cleanup still removes every file of the working directory that has
    the name of a source, and no other file. *)
Theorem run_pytorch_script_main_missing sources main arch seed w :
  main ∉ keys sources →
  ∃ w',
    run_pytorch_script VALIDATE_FAIL exec sources main arch seed w
    = (Raise AssertionError, w')
    ∧ (∃ removed, trace w' = (trace w ++ map EvRemove removed)%list)
    ∧ (∀ f, f ∈ keys sources → fs w' !! f = None)
    ∧ (∀ f, f ∉ keys sources → fs w' !! f = fs w !! f).
Proof.
  intros Hmain. exists (cleaned (keys sources) w).
  split; [|split; [apply cleaned_trace|split]].
  - unfold run_pytorch_script, try_finally.
    rewrite bool_decide_eq_false_2 by done.
    erewrite bind_raise by reflexivity. by rewrite for_clean.
  - intros f Hf. by apply cleaned_absent.
  - intros f Hf. by apply cleaned_other.
Qed.


(** X17. When [main] is one of the sources and the interpreter cannot
    be started, [run_pytorch_script] raises [FileNotFoundError]; the
    sources it has written are removed again and every other file is
    as it was. *)
Theorem run_pytorch_script_not_started sources main arch seed w :
  main ∈ keys sources →
  exec ["python"; main] (child_env seed (written sources w))
    [fresh_fd (pipes (written sources w)) + 1] (fs (written sources w))
  = None →
  ∃ w',
    run_pytorch_script VALIDATE_FAIL exec sources main arch seed w
    = (Raise (FileNotFoundError "python"), w')
    ∧ (∀ f, f ∈ keys sources → fs w' !! f = None)
    ∧ (∀ f, f ∉ keys sources → fs w' !! f = fs w !! f).
Proof.
  intros Hmain Hexec.
  destruct (run_program_not_started VALIDATE_FAIL exec _ _ _ Hexec)
    as (w1 & Hprog & Hfs).
  exists (cleaned (keys sources) w1). split; [|split].
  - unfold run_pytorch_script, try_finally.
    rewrite bool_decide_eq_true_2 by done.
    erewrite bind_ok by reflexivity. erewrite bind_ok by apply for_write.
    by rewrite Hprog, for_clean.
  - intros f Hf. by apply cleaned_absent.
  - intros f Hf. rewrite cleaned_other by done. rewrite Hfs.
    by apply written_other.
Qed.

End RunnersMore.

(** ** The dispatcher, further *)

Section RunConfigMore.

Variable VALIDATE_FAIL : Z.
Variable CUDA_FLAGS : list string.
Variable exec :
  list string → gmap string string → list Z → gmap string string →
  option proc_exit.

Lemma run_cuda_script_failed_compile sources headers arch include_dirs seed
    w cr w2 :
  compile_cuda_script CUDA_FLAGS exec (keys sources) arch
    (Some (default [] include_dirs)) true (written headers (written sources w))
  = (Ok cr, w2) →
  CompileResult.success cr = false →
  run_cuda_script VALIDATE_FAIL CUDA_FLAGS exec sources (Some headers) arch
    include_dirs seed w
  = (Ok (cr, not_run), cleaned (keys sources ++ keys headers) w2).
Proof.
  intros Hcompile Hfail.
  assert (Htry : cuda_try CUDA_FLAGS exec sources (Some headers) arch
                   (default [] include_dirs) w = (Ok (inl (cr, not_run)), w2)).
  { unfold cuda_try. erewrite bind_ok by apply for_write.
    cbn [items_of]. erewrite bind_ok by reflexivity.
    erewrite bind_ok by apply for_write.
    erewrite bind_ok by exact Hcompile. by rewrite Hfail. }
  unfold run_cuda_script.
  erewrite bind_ok
    by (unfold try_finally; rewrite Htry, cuda_finally_some; reflexivity).
  reflexivity.
Qed.

Lemma run_program_trace_head args seed w :
  ∃ evs,
    trace (run_program VALIDATE_FAIL exec args seed w).2
    = (trace w ++
       EvPipe (fresh_fd (pipes w)) (fresh_fd (pipes w) + 1)
       :: EvExec args (child_env seed w) [fresh_fd (pipes w) + 1] (fs w)
       :: evs)%list.
Proof.
  destruct (exec args (child_env seed w) [fresh_fd (pipes w) + 1] (fs w))
    as [p|] eqn:Hexec.
  - apply (run_program_exited VALIDATE_FAIL) in Hexec as (w' & Hrun & _ & Htr).
    rewrite Hrun. cbn [snd]. rewrite Htr. by eexists.
  - unfold child_env in *. remember (fresh_fd (pipes w)) as r eqn:Hr.
    unfold run_program. unfold_M. simpl_M. rewrite <- Hr. simpl_M.
    rewrite Hexec. simpl_M. exists []. by rewrite <- !app_assoc.
Qed.

(** X18. Every [FullResult] that [run_config] returns has [success]
    true, an empty [error] and a run result; it has a compile result
    exactly when the language is [cu]. Failures of the job do not show
    in [success]. *)
Theorem run_config_result_invariant config w r w' :
  run_config VALIDATE_FAIL CUDA_FLAGS exec config w = (Ok r, w') →
  FullResult.success r = true
  ∧ FullResult.error r = ""
  ∧ is_Some (FullResult.run r)
  ∧ (is_Some (FullResult.compile r) ↔ cfg_lang config = Some "cu").
Proof.
  unfold run_config. destruct (cfg_lang config) as [lang|]; cbn [subscript];
    [erewrite bind_ok by reflexivity
    |erewrite bind_raise by reflexivity; intros [=]].
  destruct (String.eqb lang "py") eqn:Epy;
    [|destruct (String.eqb lang "cu") eqn:Ecu; [|intros [=]]];
    (destruct (cfg_sources config) as [sources|]; cbn [subscript];
     [erewrite bind_ok by reflexivity
     |erewrite bind_raise by reflexivity; intros [=]]).
  - destruct (cfg_main config) as [main|]; cbn [subscript];
      [erewrite bind_ok by reflexivity
      |erewrite bind_raise by reflexivity; intros [=]].
    unfold mbind, M_bind.
    destruct (run_pytorch_script _ _ _ _ _ _ _) as [[rr|e|] w1];
      intros [= <- <-]. cbn. repeat split; [by eexists|by intros [? [=]]|].
    apply String.eqb_eq in Epy as ->. intros [=].
  - unfold mbind, M_bind.
    destruct (run_cuda_script _ _ _ _ _ _ _ _ _) as [[[comp rr]|e|] w1];
      intros [= <- <-]. cbn. repeat split; [by eexists| |by eexists].
    apply String.eqb_eq in Ecu as ->. done.
Qed.

(** X19. A configuration without the key [lang], or without [sources],
    or, for [py], without [main], makes [run_config] raise [KeyError]
    for that key before anything is written or run. *)
Theorem run_config_missing_key config w :
  (cfg_lang config = None →
   run_config VALIDATE_FAIL CUDA_FLAGS exec config w
   = (Raise (KeyError "lang"), w))
  ∧ (cfg_lang config = Some "py" ∨ cfg_lang config = Some "cu" →
     cfg_sources config = None →
     run_config VALIDATE_FAIL CUDA_FLAGS exec config w
     = (Raise (KeyError "sources"), w))
  ∧ (cfg_lang config = Some "py" → is_Some (cfg_sources config) →
     cfg_main config = None →
     run_config VALIDATE_FAIL CUDA_FLAGS exec config w
     = (Raise (KeyError "main"), w)).
Proof.
  unfold run_config. split; [|split].
  - intros ->. cbn [subscript]. by erewrite bind_raise by reflexivity.
  - intros [-> | ->] ->; cbn [subscript]; erewrite bind_ok by reflexivity;
      cbn [String.eqb Ascii.eqb Bool.eqb]; by erewrite bind_raise by reflexivity.
  - intros -> [sources ->] ->. cbn [subscript].
    erewrite bind_ok by reflexivity. cbn [String.eqb Ascii.eqb Bool.eqb].
    erewrite bind_ok by reflexivity. by erewrite bind_raise by reflexivity.
Qed.

(** X20. A [cu] configuration that has no [headers] key is run with no
    headers. When its compilation fails, [run_config] still returns a
    result with [success] true, which carries the failing compile
    result and the run result of a job that was not run; the sources
    are removed. *)
Theorem run_config_cu_compile_fails config sources w cr w2 :
  cfg_lang config = Some "cu" →
  cfg_sources config = Some sources →
  cfg_headers config = None →
  compile_cuda_script CUDA_FLAGS exec (keys sources)
    (default None (cfg_arch config))
    (Some (default [] (default (Some []) (cfg_include_dirs config))))
    true (written sources w) = (Ok cr, w2) →
  CompileResult.success cr = false →
  ∃ w',
    run_config VALIDATE_FAIL CUDA_FLAGS exec config w
    = (Ok {| FullResult.success := true; FullResult.error := "";
             FullResult.compile := Some cr;
             FullResult.run := Some not_run |}, w')
    ∧ ∀ f, f ∈ keys sources → fs w' !! f = None.
Proof.
  intros Hlang Hsources Hheaders Hcompile Hfail.
  exists (cleaned (keys sources ++ keys []) w2). split.
  - unfold run_config. rewrite Hlang, Hsources, Hheaders. cbn [subscript].
    erewrite bind_ok by reflexivity. cbn [String.eqb Ascii.eqb Bool.eqb].
    erewrite bind_ok by reflexivity.
    erewrite bind_ok
      by (apply run_cuda_script_failed_compile; [exact Hcompile|exact Hfail]).
    reflexivity.
  - intros f Hf. apply cleaned_absent. apply elem_of_app. by left.
Qed.

(** X21. [run_config] passes no seed: in a [py] job whose [main] is one
    of the sources, the interpreter is started with [POPCORN_SEED] set
    to 42, in a working directory that holds the sources. *)
Theorem run_config_py_seed config sources main w :
  cfg_lang config = Some "py" →
  cfg_sources config = Some sources →
  cfg_main config = Some main →
  main ∈ keys sources →
  ∃ env fds cwd,
    EvExec ["python"; main] env fds cwd
      ∈ trace (run_config VALIDATE_FAIL CUDA_FLAGS exec config w).2
    ∧ env !! "POPCORN_SEED" = Some "42"
    ∧ ∀ f, f ∈ keys sources → is_Some (cwd !! f).
Proof.
  intros Hlang Hsources Hmain Hin.
  exists (child_env 42 (written sources w)),
         [fresh_fd (pipes (written sources w)) + 1], (fs (written sources w)).
  split; [|split].
  - destruct (run_program_trace_head ["python"; main] 42 (written sources w))
      as [evs Hevs].
    pose proof (run_program_never_hangs VALIDATE_FAIL exec ["python"; main] 42
                  (written sources w)) as Hnh.
    assert (Hpy : ∃ removed,
      trace (run_pytorch_script VALIDATE_FAIL exec sources main
               (default None (cfg_arch config)) 42 w).2
      = (trace (run_program VALIDATE_FAIL exec ["python"; main] 42
                  (written sources w)).2 ++ map EvRemove removed)%list).
    { unfold run_pytorch_script, try_finally.
      rewrite bool_decide_eq_true_2 by done.
      erewrite bind_ok by reflexivity. erewrite bind_ok by apply for_write.
      destruct (run_program _ _ _ _ _) as [[r|e|] w1]; [| |done];
        rewrite for_clean; apply cleaned_trace. }
    destruct Hpy as [removed Hpy].
    assert (Hcfg :
      trace (run_config VALIDATE_FAIL CUDA_FLAGS exec config w).2
      = trace (run_pytorch_script VALIDATE_FAIL exec sources main
                 (default None (cfg_arch config)) 42 w).2).
    { unfold run_config. rewrite Hlang, Hsources, Hmain. cbn [subscript].
      erewrite bind_ok by reflexivity. cbn [String.eqb Ascii.eqb Bool.eqb].
      erewrite bind_ok by reflexivity. erewrite bind_ok by reflexivity.
      unfold mbind, M_bind.
      by destruct (run_pytorch_script _ _ _ _ _ _ _) as [[r|e|] w1]. }
    rewrite Hcfg, Hpy, Hevs.
    apply elem_of_app. left. apply elem_of_app. right. right. left.
  - unfold child_env. apply lookup_insert_eq.
  - intros f Hf. by apply written_present.
Qed.

End RunConfigMore.

(** ** The environment check of [consts.py] *)

(** X22. [init_environment] succeeds exactly when, once [load_dotenv]
    has run, [DISCORD_TOKEN], [GITHUB_TOKEN] and [GITHUB_REPO] are all
    set to a text that is not empty; otherwise it raises [ValueError]
    naming the first of them, in this order, that is unset or empty. *)
Theorem init_environment_checks load_dotenv w :
  init_environment load_dotenv w
  = (match List.find (λ var, negb (truthy (load_dotenv (environ w) !! var)))
             required_env_vars with
     | None => Ok ()
     | Some var => Raise (ValueError (var +:+ " not found"))
     end,
     set_environ (load_dotenv (environ w)) w).
Proof.
  unfold init_environment, required_env_vars. cbn [for_ List.find].
  unfold os_getenv. unfold_M. cbn -[truthy].
  destruct (truthy (load_dotenv (environ w) !! "DISCORD_TOKEN")); cbn -[truthy];
    [|done].
  destruct (truthy (load_dotenv (environ w) !! "GITHUB_TOKEN")); cbn -[truthy];
    [|done].
  by destruct (truthy (load_dotenv (environ w) !! "GITHUB_REPO")).
Qed.

(** A token set to the empty text counts as missing. *)
Example init_environment_empty_token :
  (init_environment
     (λ env, <["GITHUB_TOKEN" := ""]> (<["DISCORD_TOKEN" := "t"]> env))
     Demo.w0).1
  = Raise (ValueError "GITHUB_TOKEN not found").
Proof. vm_compute. reflexivity. Qed.

(** ** Evaluations of the further properties *)

Lemma run_cuda_script_artifact_runs_clean_witness :
  ∃ cr rr w',
    run_cuda_script Demo.VALIDATE_FAIL Demo.CUDA_FLAGS
      (Demo.exec 0 0 0 Demo.pass_report)
      [("kernel.cu", "__global__ void k() {}")] (Some [("ref.h", "#pragma once")])
      None None 7 Demo.w0 = (Ok (cr, rr), w')
    ∧ RunResult.passed rr = true
    ∧ fs w' = {[ "eval.out" := "ELF" ]}.
Proof.
  edestruct (run_cuda_script_artifact_runs_clean Demo.VALIDATE_FAIL
               Demo.CUDA_FLAGS (Demo.exec 0 0 0 Demo.pass_report)
               [("kernel.cu", "__global__ void k() {}")]
               [("ref.h", "#pragma once")] None None 7 Demo.w0)
    as (w' & Hrun & _ & Hfs).
  - vm_compute. reflexivity.
  - reflexivity.
  - vm_compute. reflexivity.
  - eexists _, _, w'. split; [exact Hrun|]. split; [|exact Hfs].
    vm_compute. reflexivity.
Defined.

Lemma run_cuda_script_compile_raises_witness :
  run_cuda_script Demo.VALIDATE_FAIL Demo.CUDA_FLAGS (Demo.exec_table [])
    [("kernel.cu", "x")] (Some [("ref.h", "y")]) None None 42
    (set_fs {[ "notes.txt" := "keep" ]} Demo.w0)
  = (Raise (FileNotFoundError "which"),
     cleaned ["kernel.cu"; "ref.h"]
       (emit (EvExec ["which"; "nvcc"] {[ "PATH" := "/usr/bin" ]} []
                (fs (written [("ref.h", "y")] (written [("kernel.cu", "x")]
                       (set_fs {[ "notes.txt" := "keep" ]} Demo.w0)))))
          (emit (EvPrint "[CUDA Env Check]")
             (written [("ref.h", "y")] (written [("kernel.cu", "x")]
                (set_fs {[ "notes.txt" := "keep" ]} Demo.w0)))))).
Proof.
  apply (run_cuda_script_compile_raises Demo.VALIDATE_FAIL Demo.CUDA_FLAGS
           (Demo.exec_table []) [("kernel.cu", "x")] [("ref.h", "y")]
           None None 42 (set_fs {[ "notes.txt" := "keep" ]} Demo.w0)).
  reflexivity.
Defined.

Lemma run_pytorch_script_main_missing_witness :
  ∃ w',
    run_pytorch_script Demo.VALIDATE_FAIL (Demo.exec 0 0 0 Demo.pass_report)
      [("train.py", "print(1)")] "main.py" None 42
      (set_fs {[ "train.py" := "old"; "notes.txt" := "keep" ]} Demo.w0)
    = (Raise AssertionError, w')
    ∧ fs w' !! "train.py" = None
    ∧ fs w' !! "notes.txt" = Some "keep".
Proof.
  destruct (run_pytorch_script_main_missing Demo.VALIDATE_FAIL
              (Demo.exec 0 0 0 Demo.pass_report)
              [("train.py", "print(1)")] "main.py" None 42
              (set_fs {[ "train.py" := "old"; "notes.txt" := "keep" ]} Demo.w0))
    as (w' & Hrun & _ & Hgone & Hkept).
  - intros [[=]|H%elem_of_nil]%elem_of_cons. done.
  - exists w'. split; [exact Hrun|]. split.
    + apply Hgone. left.
    + rewrite Hkept; [reflexivity|].
      intros [[=]|H%elem_of_nil]%elem_of_cons. done.
Defined.


Lemma run_config_result_invariant_witness :
  ∃ r w',
    run_config Demo.VALIDATE_FAIL Demo.CUDA_FLAGS (Demo.exec 0 1 0 "")
      {| cfg_lang := Some "cu"; cfg_sources := Some [("kernel.cu", "x")];
         cfg_main := None; cfg_headers := None; cfg_arch := None;
         cfg_include_dirs := None |} Demo.w0 = (Ok r, w')
    ∧ FullResult.success r = true
    ∧ (CompileResult.success <$> FullResult.compile r) = Some false.
Proof.
  eexists _, _. split; [vm_compute; reflexivity|]. split; [|reflexivity].
  eapply proj1, (run_config_result_invariant Demo.VALIDATE_FAIL Demo.CUDA_FLAGS
                   (Demo.exec 0 1 0 "")
                   {| cfg_lang := Some "cu";
                      cfg_sources := Some [("kernel.cu", "x")];
                      cfg_main := None; cfg_headers := None; cfg_arch := None;
                      cfg_include_dirs := None |} Demo.w0).
  vm_compute. reflexivity.
Defined.

Lemma run_config_missing_key_witness :
  run_config Demo.VALIDATE_FAIL Demo.CUDA_FLAGS (Demo.exec 0 0 0 "")
    {| cfg_lang := Some "py"; cfg_sources := Some [("train.py", "x")];
       cfg_main := None; cfg_headers := None; cfg_arch := None;
       cfg_include_dirs := None |} Demo.w0
  = (Raise (KeyError "main"), Demo.w0).
Proof.
  apply (proj2 (proj2 (run_config_missing_key Demo.VALIDATE_FAIL Demo.CUDA_FLAGS
                         (Demo.exec 0 0 0 "") _ Demo.w0)));
    [reflexivity|by eexists|reflexivity].
Defined.

Lemma run_config_cu_compile_fails_witness :
  ∃ cr w',
    run_config Demo.VALIDATE_FAIL Demo.CUDA_FLAGS (Demo.exec 0 1 0 "")
      {| cfg_lang := Some "cu"; cfg_sources := Some [("kernel.cu", "x")];
         cfg_main := None; cfg_headers := None; cfg_arch := Some (Some 90);
         cfg_include_dirs := None |} Demo.w0
    = (Ok {| FullResult.success := true; FullResult.error := "";
             FullResult.compile := Some cr;
             FullResult.run := Some not_run |}, w')
    ∧ CompileResult.exit_code cr = 1
    ∧ fs w' !! "kernel.cu" = None.
Proof.
  edestruct (run_config_cu_compile_fails Demo.VALIDATE_FAIL Demo.CUDA_FLAGS
               (Demo.exec 0 1 0 "")
               {| cfg_lang := Some "cu";
                  cfg_sources := Some [("kernel.cu", "x")];
                  cfg_main := None; cfg_headers := None;
                  cfg_arch := Some (Some 90); cfg_include_dirs := None |}
               [("kernel.cu", "x")] Demo.w0) as (w' & Hrun & Hgone).
  - reflexivity.
  - reflexivity.
  - reflexivity.
  - vm_compute. reflexivity.
  - reflexivity.
  - eexists _, w'. split; [exact Hrun|]. split; [reflexivity|].
    apply Hgone. left.
Defined.

Lemma run_config_py_seed_witness :
  ∃ env fds cwd,
    EvExec ["python"; "train.py"] env fds cwd
      ∈ trace (run_config Demo.VALIDATE_FAIL Demo.CUDA_FLAGS
                 (Demo.exec 0 0 0 Demo.pass_report)
                 {| cfg_lang := Some "py";
                    cfg_sources := Some [("train.py", "print(1)")];
                    cfg_main := Some "train.py"; cfg_headers := None;
                    cfg_arch := None; cfg_include_dirs := None |} Demo.w0).2
    ∧ env !! "POPCORN_SEED" = Some "42"
    ∧ ∀ f, f ∈ ["train.py"] → is_Some (cwd !! f).
Proof.
  apply (run_config_py_seed Demo.VALIDATE_FAIL Demo.CUDA_FLAGS
           (Demo.exec 0 0 0 Demo.pass_report) _ [("train.py", "print(1)")]
           "train.py" Demo.w0); [reflexivity|reflexivity|reflexivity|left].
Defined.

(** ** Line ends of the report *)

Lemma splitlines_from_cons cur c r :
  splitlines_from cur (String c r) =
  if is_linebreak c then
    reverse cur ::
      splitlines (if Ascii.eqb c CR
                  then match r with
                       | String d r2 => if Ascii.eqb d LF then r2 else r
                       | EmptyString => r
                       end
                  else r)
  else splitlines_from (String c cur) r.
Proof. reflexivity. Qed.

Lemma universal_newlines_cons c r :
  universal_newlines (String c r) =
  if Ascii.eqb c CR then
    match r with
    | String d r2 =>
        if Ascii.eqb d LF then String LF (universal_newlines r2)
        else String LF (universal_newlines r)
    | EmptyString => String LF EmptyString
    end
  else String c (universal_newlines r).
Proof. reflexivity. Qed.

Lemma universal_newlines_empty s : universal_newlines s = "" → s = "".
Proof.
  destruct s as [|c r]; [done|]. rewrite universal_newlines_cons.
  destruct (Ascii.eqb c CR); [|done].
  destruct r as [|d r2]; [done|]. by destruct (Ascii.eqb d LF).
Qed.

Lemma splitlines_unfold s :
  splitlines s = match s with
                 | EmptyString => []
                 | String _ _ => splitlines_from "" s
                 end.
Proof. reflexivity. Qed.

Lemma splitlines_universal_newlines_aux n :
  ∀ s, (String.length s ≤ n)%nat →
       (∀ cur, splitlines_from cur (universal_newlines s) = splitlines_from cur s)
       ∧ splitlines (universal_newlines s) = splitlines s.
Proof.
  induction n as [|n IH]; intros s Hlen.
  - destruct s; [done|cbn in Hlen; lia].
  - assert (Hfrom : ∀ cur,
      splitlines_from cur (universal_newlines s) = splitlines_from cur s).
    { intros cur. destruct s as [|c r]; [done|]. cbn in Hlen.
      assert (Hr : (String.length r ≤ n)%nat) by lia.
      destruct (IH r Hr) as [IHfrom IHsplit].
      rewrite universal_newlines_cons, (splitlines_from_cons cur c r).
      destruct (Ascii.eqb c CR) eqn:Ec.
      - apply Ascii.eqb_eq in Ec as ->.
        change (is_linebreak CR) with true. cbv iota.
        destruct r as [|d r2]; [done|].
        destruct (Ascii.eqb d LF) eqn:Ed.
        + rewrite splitlines_from_cons. change (is_linebreak LF) with true.
          change (Ascii.eqb LF CR) with false. cbv iota.
          cbn in Hr. destruct (IH r2 ltac:(lia)) as [_ ->]. done.
        + rewrite splitlines_from_cons. change (is_linebreak LF) with true.
          change (Ascii.eqb LF CR) with false. cbv iota. by rewrite IHsplit.
      - rewrite splitlines_from_cons, Ec.
        destruct (is_linebreak c); [by rewrite IHsplit|apply IHfrom]. }
    split; [exact Hfrom|].
    rewrite (splitlines_unfold s), (splitlines_unfold (universal_newlines s)).
    destruct s as [|c r]; [done|].
    destruct (universal_newlines (String c r)) as [|c' r'] eqn:Eu.
    + by apply universal_newlines_empty in Eu.
    + apply Hfrom.
Qed.

(** X23. The translation of line ends made when the pipe is read as
    text does not change the verdict: a report parses to the same
    mapping whether its lines end in LF, in CR LF or in CR. *)
Theorem parse_verdict_universal_newlines report :
  parse_verdict (universal_newlines report) = parse_verdict report.
Proof.
  unfold parse_verdict. f_equal.
  by apply (splitlines_universal_newlines_aux (String.length report)).
Qed.

Lemma run_pytorch_script_not_started_witness :
  ∃ w',
    run_pytorch_script Demo.VALIDATE_FAIL (Demo.exec_table [])
      [("train.py", "print(1)")] "train.py" None 42
      (set_fs {[ "notes.txt" := "keep" ]} Demo.w0)
    = (Raise (FileNotFoundError "python"), w')
    ∧ fs w' !! "train.py" = None
    ∧ fs w' !! "notes.txt" = Some "keep".
Proof.
  destruct (run_pytorch_script_not_started Demo.VALIDATE_FAIL
              (Demo.exec_table []) [("train.py", "print(1)")] "train.py" None 42
              (set_fs {[ "notes.txt" := "keep" ]} Demo.w0))
    as (w' & Hrun & Hgone & Hkept).
  - left.
  - reflexivity.
  - exists w'. split; [exact Hrun|]. split.
    + apply Hgone. left.
    + rewrite Hkept; [reflexivity|].
      intros [[=]|H%elem_of_nil]%elem_of_cons. done.
Defined.
